(** * transcript_extractor/extractor.py: a shallow embedding

    The Python module turns a YouTube reference into a Markdown report:
    [extract_video_id], [format_timestamp], [get_transcript],
    [get_video_metadata], [sanitize_filename], [save_to_markdown], [main].

    Conventions of the embedding.
    - A Python [str] is a [string] holding its UTF-8 encoding.  Every
      character the program inspects (the regular expressions, the
      separators) is ASCII, and no byte of a multi-byte UTF-8 sequence is
      ASCII, so matching bytes and matching code points agree.
    - A Python [float] holding a time offset is a rational [Q]; [//], [%]
      and [int] are the exact operations, which is what the float ones
      compute on offsets below 2^53 seconds.
    - The remote providers, the environment, the clock and the file system
      are the fields of a record [Env]; the effects of a run are threaded
      through a state-and-exception monad [M] over [World]. *)

From Stdlib Require Import ZArith QArith Qround Lia List.
From Stdlib Require Import Ascii String DecimalString.
From stdpp Require Import base option gmap strings list.

Local Open Scope string_scope.
Local Open Scope list_scope.
Local Open Scope Z_scope.

(** ** Python primitives *)

Module Py.

(** [str(n)] and [f"{n}"] for an [int]. *)
Definition str_of_int (n : Z) : string :=
  NilZero.string_of_int (Z.to_int n).

(** [f"{n:02d}"]: decimal, sign included in the width, padded with zeros
    up to two characters.  A negative number already has two. *)
Definition format_02d (n : Z) : string :=
  let s := str_of_int n in
  if (String.length s <? 2)%nat then "0" +:+ s else s.

(** [f"{n:04d}"], as [strftime("%Y")] prints a year. *)
Definition format_04d (n : Z) : string :=
  let s := str_of_int n in
  String.concat "" (repeat "0" (4 - String.length s)) +:+ s.

(** [x // d] on floats: the floor of the quotient, still a float. *)
Definition floordiv (x d : Q) : Q := inject_Z (Qfloor (x / d)).

(** [x % d] on floats, for a positive [d]: the remainder has the sign of
    [d]. *)
Definition mod_ (x d : Q) : Q := x - d * floordiv x d.

(** [int(x)]: truncation toward zero. *)
Definition int (x : Q) : Z :=
  if Qle_bool 0 x then Qfloor x else Qceiling x.

(** [sep.join(l)]. *)
Definition join (sep : string) (l : list string) : string :=
  String.concat sep l.

(** Truthiness of a [str]: non-empty. *)
Definition truthy (s : string) : bool :=
  match s with EmptyString => false | String _ _ => true end.

(** [x in l] for a tuple of strings. *)
Definition str_in (x : string) (l : list string) : bool :=
  existsb (String.eqb x) l.

End Py.

(** ** The two regular expressions *)

Module Re.

Definition newline : ascii := "010"%char.
Definition dquote : ascii := "034"%char.
Definition backslash : ascii := "092"%char.

Definition in_range (lo hi c : ascii) : bool :=
  ((nat_of_ascii lo <=? nat_of_ascii c) && (nat_of_ascii c <=? nat_of_ascii hi))%nat.

(** The class [[0-9A-Za-z_-]]. *)
Definition id_char (c : ascii) : bool :=
  in_range "0" "9" c || in_range "A" "Z" c || in_range "a" "z" c
  || Ascii.eqb c "_" || Ascii.eqb c "-".

(** [(?:v=|\/)]: the rest of the subject after the group, if it matches
    at the start of the subject. *)
Definition lead (s : string) : option string :=
  match s with
  | String "v" (String "=" r) => Some r
  | String "/" r => Some r
  | _ => None
  end.

(** [([0-9A-Za-z_-]{n})]: the captured characters and the rest. *)
Fixpoint token (n : nat) (s : string) : option (string * string) :=
  match n with
  | O => Some ("", s)
  | S n' =>
      match s with
      | String c r =>
          if id_char c
          then match token n' r with
               | Some (t, r') => Some (String c t, r')
               | None => None
               end
          else None
      | EmptyString => None
      end
  end.

(** [(?:\?|&|\/|$)].  Without [re.MULTILINE], [$] matches at the end of
    the subject and also just before a newline that ends the subject. *)
Definition tail (s : string) : bool :=
  match s with
  | EmptyString => true
  | String c r =>
      Ascii.eqb c "?" || Ascii.eqb c "&" || Ascii.eqb c "/"
      || (Ascii.eqb c newline && String.eqb r "")
  end.

(** The whole pattern anchored at the start of [s]; group 1 on success.
    No position admits two ways to match, so there is no backtracking. *)
Definition match_here (s : string) : option string :=
  match lead s with
  | Some r =>
      match token 11 r with
      | Some (t, r') => if tail r' then Some t else None
      | None => None
      end
  | None => None
  end.

(** [re.search(pattern, s)]: the match at the leftmost position that has
    one; the result is [match.group(1)]. *)
Fixpoint search (s : string) : option string :=
  match match_here s with
  | Some g => Some g
  | None =>
      match s with
      | EmptyString => None
      | String _ r => search r
      end
  end.

(** The character class of [sanitize_filename]: backslash, slash, star,
    question mark, colon, double quote, less-than, greater-than, bar. *)
Definition forbidden (c : ascii) : bool :=
  Ascii.eqb c backslash || Ascii.eqb c "/" || Ascii.eqb c "*"
  || Ascii.eqb c "?" || Ascii.eqb c ":" || Ascii.eqb c dquote
  || Ascii.eqb c "<" || Ascii.eqb c ">" || Ascii.eqb c "|".

(** [re.sub(class, "", s)] for a one-character class: every occurrence
    is replaced by the empty string, left to right. *)
Fixpoint sub_class_empty (cls : ascii -> bool) (s : string) : string :=
  match s with
  | EmptyString => EmptyString
  | String c r =>
      if cls c then sub_class_empty cls r
      else String c (sub_class_empty cls r)
  end.

End Re.

(** ** extract_video_id, format_timestamp, sanitize_filename *)

Definition extract_video_id (input_str : string) : string :=
  match Re.search input_str with
  | Some group1 => group1
  | None => input_str
  end.

Definition format_timestamp (seconds : Q) : string :=
  let hours := Py.int (Py.floordiv seconds 3600) in
  let minutes := Py.int (Py.floordiv (Py.mod_ seconds 3600) 60) in
  let secs := Py.int (Py.mod_ seconds 60) in
  Py.format_02d hours +:+ ":" +:+ Py.format_02d minutes +:+ ":" +:+ Py.format_02d secs.

Definition sanitize_filename (filename : string) : string :=
  Re.sub_class_empty Re.forbidden filename.

(** ** Data *)

(** One element of the list the transcript provider returns: a dict with
    the keys ["start"] and ["text"]. *)
Record Entry := { start : Q; text : string }.

(** The metadata dict, with its three keys. *)
Record Metadata := { title : string; channel : string; url : string }.

(** [datetime.datetime.now()], the fields [strftime] reads. *)
Record DateTime :=
  { year : Z; month : Z; day : Z; hour : Z; minute : Z; second : Z }.

(** [now.strftime("%Y%m%d_%H%M%S")]. *)
Definition strftime (now : DateTime) : string :=
  Py.format_04d (year now) +:+ Py.format_02d (month now)
  +:+ Py.format_02d (day now) +:+ "_" +:+ Py.format_02d (hour now)
  +:+ Py.format_02d (minute now) +:+ Py.format_02d (second now).

(** A raised exception; the program never looks inside one. *)
Inductive Exn := Exception (name : string).

(** What a run does to the outside, in order. *)
Inductive Event :=
| CallTranscriptApi (video_id : string) (languages : list string)
| CallTranslate (text dest : string)
| CallPytube (url : string)
| CallGetenv (name : string)
| CallPyyoutube (api_key video_id : string)
| CallInput (prompt : string)
| CallPrint (metadata : option Metadata)
| CallOpen (path : string).

(** The outside of a run.  [T] is the state of a [Translator] object. *)
Record Env (T : Type) := {
  (** [sys.argv] *)
  argv : list string;
  (** the value of [input(prompt).strip()] *)
  stdin_stripped : string;
  (** [os.environ] *)
  environ : gmap string string;
  (** [YouTubeTranscriptApi.get_transcript(video_id, languages=...)] *)
  transcript_api : string → list string → Exn + list Entry;
  (** [Translator()] *)
  new_translator : T;
  (** [translator.translate(text, dest=...).text] *)
  translate_api : T → string → string → (Exn + string) * T;
  (** [yt = YouTube(url)], then [yt.title] and [yt.author] *)
  pytube_api : string → Exn + (string * string);
  (** [pyyoutube.Api(api_key=...).get_video_by_id(video_id=...)], then
      [snippet.title] and [snippet.channelTitle] of each item *)
  pyyoutube_api : string → string → Exn + list (string * string);
  (** [datetime.datetime.now()] *)
  clock : DateTime;
  (** [open(path, "w", encoding="utf-8")]: the exception, if it raises *)
  open_error : string → option Exn
}.

Arguments argv {T} _.
Arguments stdin_stripped {T} _.
Arguments environ {T} _.
Arguments transcript_api {T} _ _ _.
Arguments new_translator {T} _.
Arguments translate_api {T} _ _ _ _.
Arguments pytube_api {T} _ _.
Arguments pyyoutube_api {T} _ _ _.
Arguments clock {T} _.
Arguments open_error {T} _ _.

(** What a run changes: the files under the working directory, by path, and
    the log of its calls. *)
Record World := { files : gmap string string; events : list Event }.

(** ** The monad of a run: state and exceptions *)

Inductive Result (A : Type) :=
| Ok (a : A)
| Raise (e : Exn).

Arguments Ok {A} a.
Arguments Raise {A} e.

Definition M (A : Type) : Type := World → Result A * World.

#[global] Instance M_ret : MRet M := λ A a w, (Ok a, w).

#[global] Instance M_bind : MBind M := λ A B f m w,
  match m w with
  | (Ok a, w') => f a w'
  | (Raise e, w') => (Raise e, w')
  end.

Definition raise {A} (e : Exn) : M A := λ w, (Raise e, w).

(** [try: body; except Exception: handler]. *)
Definition try_except {A} (body : M A) (handler : Exn → M A) : M A := λ w,
  match body w with
  | (Ok a, w') => (Ok a, w')
  | (Raise e, w') => handler e w'
  end.

Definition log (ev : Event) : M unit := λ w,
  (Ok tt, {| files := files w; events := events w ++ [ev] |}).

(** The result of a call that either raises or returns. *)
Definition lift {A} (r : Exn + A) : M A :=
  match r with
  | inl e => raise e
  | inr a => mret a
  end.

(** [f = open(path, "w")]: an existing file is truncated, a new one is
    created; the handle is the path. *)
Definition open_w {T} (env : Env T) (path : string) : M string :=
  log (CallOpen path) ;;
  match open_error env path with
  | Some e => raise e
  | None => λ w, (Ok path, {| files := <[path := ""]> (files w); events := events w |})
  end.

(** [f.write(s)] on a handle opened for writing. *)
Definition write (f : string) (s : string) : M unit := λ w,
  (Ok tt, {| files := alter (λ c, c +:+ s) f (files w); events := events w |}).

(** ** get_transcript, get_video_metadata, save_to_markdown, main *)

Section Extractor.

Context {T : Type} (env : Env T).

Definition watch_url (video_id : string) : string :=
  "https://www.youtube.com/watch?v=" +:+ video_id.

(** [f"[{timestamp}]({base_url}&t={start_sec}s)"] *)
Definition timestamp_link (base_url : string) (entry : Entry) : string :=
  let start_sec := Py.int (start entry) in
  let timestamp := format_timestamp (start entry) in
  "[" +:+ timestamp +:+ "](" +:+ base_url +:+ "&t="
  +:+ Py.str_of_int start_sec +:+ "s)".

(** The body of the [for] loop, from the entries left, the translator
    object and the list [lines] so far. *)
Fixpoint transcript_loop (translate : bool) (base_url : string)
    (entries : list Entry) (translator : T) (lines : list string)
    : M (list string) :=
  match entries with
  | [] => mret lines
  | entry :: entries' =>
      let link := timestamp_link base_url entry in
      let lines := lines ++ [link +:+ " " +:+ text entry] in
      if translate then
        log (CallTranslate (text entry) "ko") ;;
        let '(r, translator') := translate_api env translator (text entry) "ko" in
        match r with
        | inr translated =>
            transcript_loop translate base_url entries' translator'
              (lines ++ [link +:+ " (한글 번역) " +:+ translated])
        | inl _ =>
            transcript_loop translate base_url entries' translator'
              (lines ++ [link +:+ " (한글 번역) 오류 발생"])
        end
      else transcript_loop translate base_url entries' translator lines
  end.

(** The list [lines] at the end of [get_transcript]. *)
Definition transcript_lines (video_id : string) (translate : bool)
    : M (list string) :=
  log (CallTranscriptApi video_id ["en"; "ko"]) ;;
  transcript_list ← lift (transcript_api env video_id ["en"; "ko"]) ;
  transcript_loop translate (watch_url video_id) transcript_list
    (new_translator env) [].

Definition get_transcript (video_id : string) (translate : bool) : M string :=
  lines ← transcript_lines video_id translate ;
  mret (Py.join (String Re.newline "") lines).

(** The first [try] block: [Some] when it returns a record, [None] when
    control falls out of it. *)
Definition metadata_from_pytube (video_id : string) : M (option Metadata) :=
  let url := watch_url video_id in
  try_except
    (log (CallPytube url) ;;
     yt ← lift (pytube_api env url) ;
     let metadata := {| title := yt.1; channel := yt.2; url := url |} in
     if Py.truthy (title metadata) then mret (Some metadata) else mret None)
    (λ _, mret None).

(** The second [try] block, entered with a truthy [api_key]. *)
Definition metadata_from_pyyoutube (api_key video_id : string)
    : M (option Metadata) :=
  let url := watch_url video_id in
  try_except
    (log (CallPyyoutube api_key video_id) ;;
     items ← lift (pyyoutube_api env api_key video_id) ;
     match items with
     | item :: _ =>
         mret (Some {| title := item.1; channel := item.2; url := url |})
     | [] => mret None
     end)
    (λ _, mret None).

Definition getenv (name : string) : M (option string) :=
  log (CallGetenv name) ;;
  mret (environ env !! name).

Definition get_video_metadata (video_id : string) : M (option Metadata) :=
  first ← metadata_from_pytube video_id ;
  match first with
  | Some metadata => mret (Some metadata)
  | None =>
      api_key ← getenv "YOUTUBE_API_KEY" ;
      match api_key with
      | Some key =>
          if Py.truthy key then metadata_from_pyyoutube key video_id
          else mret None
      | None => mret None
      end
  end.

Definition save_to_markdown (metadata : Metadata) (transcript : string)
    : M string :=
  let now := clock env in
  let time_str := strftime now in
  let title_sanitized := sanitize_filename (title metadata) in
  let file_name := time_str +:+ "_" +:+ title_sanitized +:+ ".md" in
  f ← open_w env ("output/" +:+ file_name) ;
  write f ("# " +:+ title metadata +:+ String Re.newline (String Re.newline "")) ;;
  write f ("**채널명:** " +:+ channel metadata +:+ String Re.newline (String Re.newline "")) ;;
  write f ("**URL:** " +:+ url metadata +:+ String Re.newline (String Re.newline "")) ;;
  write f ("---" +:+ String Re.newline (String Re.newline "")) ;;
  write f ("## 트랜스크립트" +:+ String Re.newline (String Re.newline "")) ;;
  write f transcript ;;
  mret file_name.

(** The default the driver uses when [metadata is None]. *)
Definition default_metadata (video_id : string) : Metadata :=
  {| title := video_id; channel := "Unknown"; url := watch_url video_id |}.

Definition input_strip (prompt : string) : M string :=
  log (CallInput prompt) ;;
  mret (stdin_stripped env).

(** [main()].  No [return] of the function carries a value, so every
    normal end of a run yields [None]; the result type is that of the
    driver's contract, a filename or none. *)
Definition main : M (option string) :=
  raw_input_value ←
    (if (length (argv env) <? 2)%nat
     then input_strip "유튜브 영상 ID 또는 URL을 입력하세요: "
     else mret (nth 1 (argv env) "")) ;
  if negb (Py.truthy raw_input_value) then mret None
  else
    let video_id := extract_video_id raw_input_value in
    let translate :=
      existsb (λ arg, Py.str_in arg ["--translate"; "-t"]) (drop 2 (argv env)) in
    metadata ← get_video_metadata video_id ;
    transcript ← get_transcript video_id translate ;
    log (CallPrint metadata) ;;
    if Py.truthy transcript then
      let metadata :=
        match metadata with
        | None => default_metadata video_id
        | Some m => m
        end in
      _ ← save_to_markdown metadata transcript ;
      mret None
    else mret None.

End Extractor.

(** * Vocabulary of the properties *)

Definition nl : string := String Re.newline "".

(** The language preference of [get_transcript]. *)
Definition languages : list string := ["en"; "ko"].

(** The world after more calls were logged. *)
Definition add_events (w : World) (evs : list Event) : World :=
  {| files := files w; events := events w ++ evs |}.

(** The reference the driver works on: [sys.argv[1]], or the line typed at
    the prompt when there is no argument. *)
Definition raw_input {T} (env : Env T) : string :=
  if (length (argv env) <? 2)%nat then stdin_stripped env else nth 1 (argv env) "".

Definition translate_flag {T} (env : Env T) : bool :=
  existsb (λ arg, Py.str_in arg ["--translate"; "-t"]) (drop 2 (argv env)).

(** The clock label of a whole number of seconds. *)
Definition hms (n : Z) : string :=
  Py.format_02d (n / 3600) +:+ ":" +:+ Py.format_02d (n mod 3600 / 60)
  +:+ ":" +:+ Py.format_02d (n mod 60).

(** The deep link of an offset of [n] whole seconds into a video. *)
Definition deep_link (video_id : string) (n : Z) : string :=
  "[" +:+ hms n +:+ "](https://www.youtube.com/watch?v=" +:+ video_id
  +:+ "&t=" +:+ Py.str_of_int n +:+ "s)".

(** What the translation provider answers to the successive calls of one
    translator object, one call per text. *)
Fixpoint translations {T} (env : Env T) (translator : T) (texts : list string)
    : list (Exn + string) :=
  match texts with
  | [] => []
  | t :: texts' =>
      let '(r, translator') := translate_api env translator t "ko" in
      r :: translations env translator' texts'
  end.

Definition error_placeholder : string := "오류 발생".

(** The second line of an entry, from the provider's answer. *)
Definition second_line (link : string) (answer : Exn + string) : string :=
  link +:+ " (한글 번역) "
  +:+ match answer with inr translated => translated | inl _ => error_placeholder end.

(** The lines of a transcript whose entries received the given answers. *)
Fixpoint paired_lines (base_url : string) (entries : list Entry)
    (answers : list (Exn + string)) : list string :=
  match entries, answers with
  | entry :: entries', answer :: answers' =>
      (timestamp_link base_url entry +:+ " " +:+ text entry)
      :: second_line (timestamp_link base_url entry) answer
      :: paired_lines base_url entries' answers'
  | _, _ => []
  end.

(** The lines of a transcript without translation. *)
Definition plain_lines (base_url : string) (entries : list Entry) : list string :=
  map (λ entry, timestamp_link base_url entry +:+ " " +:+ text entry) entries.

(** The report: heading, channel, URL, rule, section heading, body. *)
Definition document (metadata : Metadata) (transcript : string) : string :=
  "# " +:+ title metadata +:+ nl +:+ nl
  +:+ "**채널명:** " +:+ channel metadata +:+ nl +:+ nl
  +:+ "**URL:** " +:+ url metadata +:+ nl +:+ nl
  +:+ "---" +:+ nl +:+ nl
  +:+ "## 트랜스크립트" +:+ nl +:+ nl
  +:+ transcript.

(** The name [save_to_markdown] gives the report, and its path. *)
Definition report_name {T} (env : Env T) (metadata : Metadata) : string :=
  strftime (clock env) +:+ "_" +:+ sanitize_filename (title metadata) +:+ ".md".

Definition report_path {T} (env : Env T) (metadata : Metadata) : string :=
  "output/" +:+ report_name env metadata.

(** The nine characters a title loses. *)
Definition stripped_chars : list ascii :=
  [Re.backslash; "/"; "*"; "?"; ":"; Re.dquote; "<"; ">"; "|"]%char.

(** A date and time of day in a four-digit year. *)
Definition valid_clock (now : DateTime) : Prop :=
  1000 ≤ year now ≤ 9999 ∧ 1 ≤ month now ≤ 12 ∧ 1 ≤ day now ≤ 31
  ∧ 0 ≤ hour now ≤ 23 ∧ 0 ≤ minute now ≤ 59 ∧ 0 ≤ second now ≤ 59.

(** The scraping provider raised, or gave an empty title. *)
Definition primary_failed {T} (env : Env T) (video_id : string) : Prop :=
  match pytube_api env (watch_url video_id) with
  | inl _ => True
  | inr (t, _) => t = ""
  end.

(** The credential the secondary attempt needs: a non-empty value of
    [YOUTUBE_API_KEY]. *)
Definition credential {T} (env : Env T) : option string :=
  match environ env !! "YOUTUBE_API_KEY" with
  | Some key => if Py.truthy key then Some key else None
  | None => None
  end.

(** No credential, or the API provider raised or found no item. *)
Definition secondary_failed {T} (env : Env T) (video_id : string) : Prop :=
  match credential env with
  | None => True
  | Some key =>
      match pyyoutube_api env key video_id with
      | inl _ => True
      | inr items => items = []
      end
  end.

(** The world once the driver has its reference: the prompt is shown only
    when there is no argument. *)
Definition prompted {T} (env : Env T) (w : World) : World :=
  if (length (argv env) <? 2)%nat
  then add_events w [CallInput "유튜브 영상 ID 또는 URL을 입력하세요: "]
  else w.

(** The metadata the driver writes, from what the chain returned. *)
Definition or_default (video_id : string) (fetched : option Metadata) : Metadata :=
  match fetched with
  | None => default_metadata video_id
  | Some m => m
  end.

(** ** The resolver's pattern, as a property of strings *)

Module Pattern.

(** What may follow the token according to the pattern of the code: a
    question mark, an ampersand, a slash, the end of the string, or one
    newline that ends the string. *)
Definition follows (rest : string) : Prop :=
  rest = "" ∨ rest = nl
  ∨ ∃ c r, rest = String c r ∧ (c = "?" ∨ c = "&" ∨ c = "/")%char.

(** What may follow the token according to the description of the
    pattern in the specification: a question mark, an ampersand, a slash,
    or the end of the string. *)
Definition spec_follows (rest : string) : Prop :=
  rest = ""
  ∨ ∃ c r, rest = String c r ∧ (c = "?" ∨ c = "&" ∨ c = "/")%char.

Definition is_token (tok : string) : Prop :=
  String.length tok = 11%nat
  ∧ Forall (λ c, Re.id_char c = true) (list_ascii_of_string tok).

(** The pattern occurs in [s] after the prefix [pre], capturing [tok]. *)
Definition occurs_at (fol : string → Prop) (s pre tok : string) : Prop :=
  ∃ p rest, s = pre +:+ p +:+ tok +:+ rest
    ∧ (p = "v=" ∨ p = "/") ∧ is_token tok ∧ fol rest.

Definition occurs (fol : string → Prop) (s : string) : Prop :=
  ∃ pre tok, occurs_at fol s pre tok.

(** The occurrence [re.search] reports: no other starts further left. *)
Definition leftmost (fol : string → Prop) (s pre tok : string) : Prop :=
  occurs_at fol s pre tok
  ∧ ∀ pre' tok', occurs_at fol s pre' tok' →
      (String.length pre ≤ String.length pre')%nat.

(** A search procedure for any decidable notion of what may follow. *)
Section Finder.
Variable fol_dec : string → bool.

Definition find_here (s : string) : option string :=
  match Re.lead s with
  | Some r =>
      match Re.token 11 r with
      | Some (t, r') => if fol_dec r' then Some t else None
      | None => None
      end
  | None => None
  end.

Fixpoint find (s : string) : option string :=
  match find_here s with
  | Some g => Some g
  | None =>
      match s with
      | EmptyString => None
      | String _ r => find r
      end
  end.
End Finder.

(** The decision procedure for [spec_follows]. *)
Definition spec_tail (s : string) : bool :=
  match s with
  | EmptyString => true
  | String c _ => Ascii.eqb c "?" || Ascii.eqb c "&" || Ascii.eqb c "/"
  end.

End Pattern.

(** ** Inputs of the examples *)

Definition world0 : World := {| files := ∅; events := [] |}.

Definition clock0 : DateTime :=
  {| year := 2026; month := 11; day := 4; hour := 9; minute := 5; second := 7 |}.

(** Two entries, a translator whose second call fails, no metadata. *)
Definition env_translate : Env nat := {|
  argv := ["extractor.py"; "https://youtu.be/dQw4w9WgXcQ"; "-t"];
  stdin_stripped := "";
  environ := ∅;
  transcript_api := λ _ _,
    inr [ {| start := 0; text := "hello" |};
          {| start := 599 # 10; text := "world" |} ];
  new_translator := O;
  translate_api := λ n t _,
    (if Nat.eqb n 1 then inl (Exception "TimeoutError") else inr ("<" +:+ t +:+ ">"),
     S n);
  pytube_api := λ _, inl (Exception "HTTPError");
  pyyoutube_api := λ _ _, inr [];
  clock := clock0;
  open_error := λ _, None
|}.

(** The scraping provider answers. *)
Definition env_scraped : Env unit := {|
  argv := ["extractor.py"; "dQw4w9WgXcQ"];
  stdin_stripped := "";
  environ := {[ "YOUTUBE_API_KEY" := "k3y" ]};
  transcript_api := λ _ _, inr [ {| start := 3661; text := "hi" |} ];
  new_translator := tt;
  translate_api := λ _ t _, (inr t, tt);
  pytube_api := λ _, inr ("A: title?", "Some Channel");
  pyyoutube_api := λ _ _, inr [("API title", "API channel")];
  clock := clock0;
  open_error := λ _, None
|}.

(** The transcript provider finds no entry. *)
Definition env_empty : Env unit := {|
  argv := ["extractor.py"; "dQw4w9WgXcQ"];
  stdin_stripped := "";
  environ := ∅;
  transcript_api := λ _ _, inr [];
  new_translator := tt;
  translate_api := λ _ t _, (inr t, tt);
  pytube_api := λ _, inr ("A title", "Some Channel");
  pyyoutube_api := λ _ _, inr [];
  clock := clock0;
  open_error := λ _, None
|}.

(** The transcript provider raises. *)
Definition env_raises : Env unit := {|
  argv := ["extractor.py"; "dQw4w9WgXcQ"];
  stdin_stripped := "";
  environ := ∅;
  transcript_api := λ _ _, inl (Exception "TranscriptsDisabled");
  new_translator := tt;
  translate_api := λ _ t _, (inr t, tt);
  pytube_api := λ _, inr ("A title", "Some Channel");
  pyyoutube_api := λ _ _, inr [];
  clock := clock0;
  open_error := λ _, None
|}.

(** The scraping provider gives an empty title, the API provider answers. *)
Definition env_api : Env unit := {|
  argv := ["extractor.py"; "dQw4w9WgXcQ"];
  stdin_stripped := "";
  environ := {[ "YOUTUBE_API_KEY" := "k3y" ]};
  transcript_api := λ _ _, inr [ {| start := 3661; text := "hi" |} ];
  new_translator := tt;
  translate_api := λ _ t _, (inr t, tt);
  pytube_api := λ _, inr ("", "Some Channel");
  pyyoutube_api := λ _ _, inr [("API title", "API channel")];
  clock := clock0;
  open_error := λ _, None
|}.

(** The API provider answers with two items, the first one untitled. *)
Definition env_untitled : Env unit := {|
  argv := ["extractor.py"; "dQw4w9WgXcQ"];
  stdin_stripped := "";
  environ := {[ "YOUTUBE_API_KEY" := "k3y" ]};
  transcript_api := λ _ _, inr [ {| start := 3661; text := "hi" |} ];
  new_translator := tt;
  translate_api := λ _ t _, (inr t, tt);
  pytube_api := λ _, inl (Exception "RegexMatchError");
  pyyoutube_api := λ _ _, inr [("", "API channel"); ("Second", "Other")];
  clock := clock0;
  open_error := λ _, None
|}.

(** No [output] directory: every [open] raises. *)
Definition env_readonly : Env unit := {|
  argv := ["extractor.py"; "dQw4w9WgXcQ"];
  stdin_stripped := "";
  environ := ∅;
  transcript_api := λ _ _, inr [ {| start := 3661; text := "hi" |} ];
  new_translator := tt;
  translate_api := λ _ t _, (inr t, tt);
  pytube_api := λ _, inr ("A title", "Some Channel");
  pyyoutube_api := λ _ _, inr [];
  clock := clock0;
  open_error := λ _, Some (Exception "FileNotFoundError")
|}.

(** No argument: the reference is typed at the prompt. *)
Definition env_prompt : Env nat := {|
  argv := ["extractor.py"];
  stdin_stripped := "https://youtu.be/dQw4w9WgXcQ";
  environ := ∅;
  transcript_api := λ _ _,
    inr [ {| start := 0; text := "hello" |};
          {| start := 599 # 10; text := "world" |} ];
  new_translator := O;
  translate_api := λ n t _, (inr ("<" +:+ t +:+ ">"), S n);
  pytube_api := λ _, inl (Exception "HTTPError");
  pyyoutube_api := λ _ _, inr [];
  clock := clock0;
  open_error := λ _, None
|}.

(** No argument and nothing typed at the prompt. *)
Definition env_silent : Env unit := {|
  argv := ["extractor.py"];
  stdin_stripped := "";
  environ := ∅;
  transcript_api := λ _ _, inr [ {| start := 0; text := "hello" |} ];
  new_translator := tt;
  translate_api := λ _ t _, (inr t, tt);
  pytube_api := λ _, inr ("A title", "Some Channel");
  pyyoutube_api := λ _ _, inr [];
  clock := clock0;
  open_error := λ _, None
|}.

(** A decimal digit. *)
Definition is_digit (c : ascii) : bool := Re.in_range "0" "9" c.

(** A reference that ends in a newline. *)
Definition newline_reference : string := "/abcdefghijk" +:+ nl.

(** * Properties *)

(** ** The functions on concrete inputs *)

Example extract_watch_url :
  extract_video_id "https://www.youtube.com/watch?v=dQw4w9WgXcQ&t=43s" = "dQw4w9WgXcQ".
Proof. reflexivity. Qed.

Example extract_short_url :
  extract_video_id "https://youtu.be/dQw4w9WgXcQ" = "dQw4w9WgXcQ".
Proof. reflexivity. Qed.

Example extract_bare_id : extract_video_id "dQw4w9WgXcQ" = "dQw4w9WgXcQ".
Proof. reflexivity. Qed.

(** A token of twelve characters is not followed by a boundary. *)
Example extract_long_token :
  extract_video_id "https://youtu.be/dQw4w9WgXcQx" = "https://youtu.be/dQw4w9WgXcQx".
Proof. reflexivity. Qed.

(** The leftmost occurrence wins, here a path segment before [v=]. *)
Example extract_leftmost :
  extract_video_id "https://x.io/abcdefghijk/watch?v=dQw4w9WgXcQ" = "abcdefghijk".
Proof. reflexivity. Qed.

Example format_02d_negative : Py.format_02d (-5) = "-5".
Proof. reflexivity. Qed.

Example format_timestamp_long : format_timestamp 360000 = "100:00:00".
Proof. vm_compute. reflexivity. Qed.

Example strftime_clock0 : strftime clock0 = "20261104_090507".
Proof. vm_compute. reflexivity. Qed.

Example sanitize_example : sanitize_filename "a/b:c*d?e<f>g|h" = "abcdefgh".
Proof. reflexivity. Qed.

Example main_translate_run :
  (main env_translate world0).1 = Ok None
  ∧ events (main env_translate world0).2
    = [ CallPytube "https://www.youtube.com/watch?v=dQw4w9WgXcQ";
        CallGetenv "YOUTUBE_API_KEY";
        CallTranscriptApi "dQw4w9WgXcQ" ["en"; "ko"];
        CallTranslate "hello" "ko"; CallTranslate "world" "ko";
        CallPrint None;
        CallOpen "output/20261104_090507_dQw4w9WgXcQ.md" ].
Proof. split; vm_compute; reflexivity. Qed.

(** ** Arithmetic of the timestamp *)

Lemma int_inject_Z (z : Z) : Py.int (inject_Z z) = z.
Proof.
  unfold Py.int. destruct (Qle_bool 0 (inject_Z z)).
  - apply Qfloor_Z.
  - apply Qceiling_Z.
Qed.

Lemma Qfloor_div_pos (x : Q) (k : positive) :
  Qfloor (x / inject_Z (Z.pos k)) = Qfloor x / Z.pos k.
Proof.
  destruct x as [n d]. unfold Qdiv, Qmult, Qinv, inject_Z, Qfloor. simpl.
  rewrite Z.mul_1_r, Pos2Z.inj_mul, Z.div_div by lia. reflexivity.
Qed.

Lemma Qfloor_mod_pos (x : Q) (k : positive) :
  Qfloor (Py.mod_ x (inject_Z (Z.pos k))) = Qfloor x mod Z.pos k.
Proof.
  unfold Py.mod_, Py.floordiv. rewrite Qfloor_div_pos.
  destruct x as [n d]. unfold Qfloor at 2 3. set (q := n / Z.pos d / Z.pos k).
  unfold Qminus, Qplus, Qopp, Qmult, inject_Z, Qfloor. cbn [Qnum Qden].
  change (1 * 1)%positive with 1%positive. rewrite Pos.mul_1_r, Z.mul_1_r.
  rewrite Z.div_add by lia. rewrite Z.mod_eq by lia. subst q. ring.
Qed.

Lemma mod_pos_nonneg (x : Q) (k : positive) :
  Qle_bool 0 (Py.mod_ x (inject_Z (Z.pos k))) = true.
Proof.
  apply Qle_bool_iff.
  unfold Py.mod_, Py.floordiv. rewrite Qfloor_div_pos.
  destruct x as [n d]. unfold Qfloor.
  pose proof (Z.mul_div_le n (Z.pos d) ltac:(lia)) as H1.
  pose proof (Z.mul_div_le (n / Z.pos d) (Z.pos k) ltac:(lia)) as H2.
  set (q := n / Z.pos d / Z.pos k) in *.
  unfold Qle, Qminus, Qplus, Qopp, Qmult, inject_Z. cbn [Qnum Qden].
  change (1 * 1)%positive with 1%positive. nia.
Qed.

Lemma int_nonneg (x : Q) : (0 <= x)%Q → Py.int x = Qfloor x ∧ 0 ≤ Qfloor x.
Proof.
  intros H. unfold Py.int.
  assert (Qle_bool 0 x = true) as -> by (apply Qle_bool_iff; exact H).
  split; [reflexivity|].
  change 0 with (Qfloor 0). apply Qfloor_resp_le. exact H.
Qed.

(** The three fields are those of the floor of the offset. *)
Lemma format_timestamp_floor (seconds : Q) :
  format_timestamp seconds =
    Py.format_02d (Qfloor seconds / 3600) +:+ ":"
    +:+ Py.format_02d (Qfloor seconds mod 3600 / 60) +:+ ":"
    +:+ Py.format_02d (Qfloor seconds mod 60).
Proof.
  unfold format_timestamp.
  change (3600%Q) with (inject_Z (Z.pos 3600)).
  change (60%Q) with (inject_Z (Z.pos 60)).
  unfold Py.floordiv at 1 2. rewrite !int_inject_Z.
  rewrite !Qfloor_div_pos, Qfloor_mod_pos.
  unfold Py.int at 1. rewrite mod_pos_nonneg, Qfloor_mod_pos.
  reflexivity.
Qed.

(** ** Running the monad *)

Ltac run :=
  unfold mbind, M_bind, mret, M_ret, log, lift, raise, try_except;
  cbn [fst snd files events].

Ltac same_world :=
  unfold add_events; cbn [files events]; rewrite <- ?app_assoc; reflexivity.

Lemma add_events_nil (w : World) : add_events w [] = w.
Proof. destruct w. unfold add_events. cbn. rewrite app_nil_r. reflexivity. Qed.

Lemma add_events_app (w : World) (evs evs' : list Event) :
  add_events (add_events w evs) evs' = add_events w (evs ++ evs').
Proof. unfold add_events. cbn. rewrite app_assoc. reflexivity. Qed.

Lemma files_add_events (w : World) (evs : list Event) :
  files (add_events w evs) = files w.
Proof. reflexivity. Qed.

Section Runs.

Context {T : Type} (env : Env T).

(** *** The transcript loop *)

Lemma transcript_loop_translating base_url entries translator lines w :
  transcript_loop env true base_url entries translator lines w =
    (Ok (lines ++ paired_lines base_url entries
                    (translations env translator (map text entries))),
     add_events w (map (λ entry, CallTranslate (text entry) "ko") entries)).
Proof.
  revert translator lines w.
  induction entries as [|entry entries IH]; intros translator lines w.
  - cbn. rewrite app_nil_r, add_events_nil. reflexivity.
  - cbn [transcript_loop map translations]. run.
    destruct (translate_api env translator (text entry) "ko") as [[e|translated] translator'];
      rewrite IH; cbn [paired_lines second_line];
      rewrite <- !app_assoc; cbn [app]; f_equal; first [reflexivity | same_world].
Qed.

Lemma transcript_loop_plain base_url entries translator lines w :
  transcript_loop env false base_url entries translator lines w =
    (Ok (lines ++ plain_lines base_url entries), w).
Proof.
  revert lines.
  induction entries as [|entry entries IH]; intros lines.
  - cbn. rewrite app_nil_r. reflexivity.
  - cbn [transcript_loop]. rewrite IH. unfold plain_lines. cbn [map].
    rewrite <- app_assoc. reflexivity.
Qed.

Lemma transcript_lines_raises video_id translate w e :
  transcript_api env video_id languages = inl e →
  transcript_lines env video_id translate w =
    (Raise e, add_events w [CallTranscriptApi video_id languages]).
Proof.
  intros H. unfold transcript_lines, languages in *. run. rewrite H. run. reflexivity.
Qed.

Lemma transcript_lines_translating video_id w entries :
  transcript_api env video_id languages = inr entries →
  transcript_lines env video_id true w =
    (Ok (paired_lines (watch_url video_id) entries
           (translations env (new_translator env) (map text entries))),
     add_events w (CallTranscriptApi video_id languages
                   :: map (λ entry, CallTranslate (text entry) "ko") entries)).
Proof.
  intros H. unfold transcript_lines, languages in *. run. rewrite H. run.
  rewrite transcript_loop_translating. cbn [app]. f_equal; first [reflexivity | same_world].
Qed.

Lemma transcript_lines_plain video_id w entries :
  transcript_api env video_id languages = inr entries →
  transcript_lines env video_id false w =
    (Ok (plain_lines (watch_url video_id) entries),
     add_events w [CallTranscriptApi video_id languages]).
Proof.
  intros H. unfold transcript_lines, languages in *. run. rewrite H. run.
  rewrite transcript_loop_plain. reflexivity.
Qed.

(** The assembler touches no file. *)
Lemma transcript_lines_files video_id translate w :
  files (transcript_lines env video_id translate w).2 = files w.
Proof.
  destruct (transcript_api env video_id languages) as [e|entries] eqn:H.
  - rewrite (transcript_lines_raises _ _ _ _ H). reflexivity.
  - destruct translate.
    + rewrite (transcript_lines_translating _ _ _ H). reflexivity.
    + rewrite (transcript_lines_plain _ _ _ H). reflexivity.
Qed.

Lemma get_transcript_lines video_id translate w :
  get_transcript env video_id translate w =
    match transcript_lines env video_id translate w with
    | (Ok lines, w') => (Ok (Py.join nl lines), w')
    | (Raise e, w') => (Raise e, w')
    end.
Proof. unfold get_transcript. run. reflexivity. Qed.

End Runs.

(** *** Strings *)

Lemma append_cons (x : ascii) (a b : string) :
  String x a +:+ b = String x (a +:+ b).
Proof. reflexivity. Qed.

Lemma append_assoc (a b c : string) : (a +:+ b) +:+ c = a +:+ b +:+ c.
Proof.
  induction a as [|x a IH]; [reflexivity|].
  rewrite !append_cons, IH. reflexivity.
Qed.

Lemma append_nil_r (a : string) : a +:+ "" = a.
Proof.
  induction a as [|x a IH]; [reflexivity|].
  rewrite append_cons, IH. reflexivity.
Qed.

Lemma length_append (a b : string) :
  String.length (a +:+ b) = (String.length a + String.length b)%nat.
Proof.
  induction a as [|x a IH]; [reflexivity|].
  rewrite append_cons. cbn [String.length]. rewrite IH. reflexivity.
Qed.

Lemma truthy_nonempty (s : string) : Py.truthy s = true ↔ s ≠ "".
Proof. destruct s; cbn; split; congruence. Qed.

Lemma truthy_join_cons (c : ascii) (s : string) (l : list string) :
  Py.truthy (Py.join nl (String c s :: l)) = true.
Proof. destruct l; reflexivity. Qed.

Section MoreRuns.

Context {T : Type} (env : Env T).

(** *** The metadata chain *)

Lemma metadata_from_pytube_found video_id w t c :
  pytube_api env (watch_url video_id) = inr (t, c) → t ≠ "" →
  metadata_from_pytube env video_id w =
    (Ok (Some {| title := t; channel := c; url := watch_url video_id |}),
     add_events w [CallPytube (watch_url video_id)]).
Proof.
  intros H Ht. apply truthy_nonempty in Ht.
  unfold metadata_from_pytube. run. rewrite H. run. cbn [title]. rewrite Ht.
  reflexivity.
Qed.

Lemma metadata_from_pytube_failed video_id w :
  primary_failed env video_id →
  metadata_from_pytube env video_id w =
    (Ok None, add_events w [CallPytube (watch_url video_id)]).
Proof.
  unfold primary_failed, metadata_from_pytube. run.
  destruct (pytube_api env (watch_url video_id)) as [e|[t c]]; run.
  - reflexivity.
  - intros ->. reflexivity.
Qed.

Lemma metadata_from_pyyoutube_run key video_id w :
  metadata_from_pyyoutube env key video_id w =
    (Ok match pyyoutube_api env key video_id with
        | inr (item :: _) =>
            Some {| title := item.1; channel := item.2; url := watch_url video_id |}
        | _ => None
        end,
     add_events w [CallPyyoutube key video_id]).
Proof.
  unfold metadata_from_pyyoutube. run.
  destruct (pyyoutube_api env key video_id) as [e|[|item items]]; reflexivity.
Qed.

Lemma get_video_metadata_found video_id w t c :
  pytube_api env (watch_url video_id) = inr (t, c) → t ≠ "" →
  get_video_metadata env video_id w =
    (Ok (Some {| title := t; channel := c; url := watch_url video_id |}),
     add_events w [CallPytube (watch_url video_id)]).
Proof.
  intros H Ht. unfold get_video_metadata. run.
  rewrite (metadata_from_pytube_found _ _ _ _ H Ht). reflexivity.
Qed.

Lemma get_video_metadata_no_credential video_id w :
  primary_failed env video_id → credential env = None →
  get_video_metadata env video_id w =
    (Ok None,
     add_events w [CallPytube (watch_url video_id); CallGetenv "YOUTUBE_API_KEY"]).
Proof.
  intros H Hc. unfold get_video_metadata, getenv. run.
  rewrite (metadata_from_pytube_failed _ _ H). run.
  unfold credential in Hc.
  destruct (environ env !! "YOUTUBE_API_KEY") as [key|]; [|f_equal; same_world].
  destruct (Py.truthy key); [discriminate|]. f_equal; same_world.
Qed.

Lemma get_video_metadata_credential video_id w key :
  primary_failed env video_id → credential env = Some key →
  get_video_metadata env video_id w =
    (Ok match pyyoutube_api env key video_id with
        | inr (item :: _) =>
            Some {| title := item.1; channel := item.2; url := watch_url video_id |}
        | _ => None
        end,
     add_events w [CallPytube (watch_url video_id); CallGetenv "YOUTUBE_API_KEY";
                   CallPyyoutube key video_id]).
Proof.
  intros H Hc. unfold get_video_metadata, getenv. run.
  rewrite (metadata_from_pytube_failed _ _ H). run.
  unfold credential in Hc.
  destruct (environ env !! "YOUTUBE_API_KEY") as [key'|]; [|discriminate].
  destruct (Py.truthy key'); [|discriminate].
  injection Hc as ->. rewrite metadata_from_pyyoutube_run. f_equal; same_world.
Qed.

Lemma primary_failed_dec video_id :
  primary_failed env video_id
  ∨ ∃ t c, pytube_api env (watch_url video_id) = inr (t, c) ∧ t ≠ "".
Proof.
  unfold primary_failed.
  destruct (pytube_api env (watch_url video_id)) as [e|[t c]]; [left; exact I|].
  destruct t as [|x t]; [left; reflexivity|right]. eexists _, _. split; [reflexivity|discriminate].
Qed.

(** The chain never raises and only logs calls. *)
Lemma get_video_metadata_total video_id w :
  ∃ m evs, get_video_metadata env video_id w = (Ok m, add_events w evs).
Proof.
  destruct (primary_failed_dec video_id) as [H|(t & c & H & Ht)].
  - destruct (credential env) as [key|] eqn:Hc.
    + rewrite (get_video_metadata_credential _ _ _ H Hc). eauto.
    + rewrite (get_video_metadata_no_credential _ _ H Hc). eauto.
  - rewrite (get_video_metadata_found _ _ _ _ H Ht). eauto.
Qed.

(** *** The report writer *)

Lemma save_to_markdown_written metadata transcript w :
  open_error env (report_path env metadata) = None →
  save_to_markdown env metadata transcript w =
    (Ok (report_name env metadata),
     {| files := <[report_path env metadata := document metadata transcript]> (files w);
        events := events w ++ [CallOpen (report_path env metadata)] |}).
Proof.
  intros H. unfold save_to_markdown, open_w, write. run.
  fold (report_name env metadata). fold (report_path env metadata).
  rewrite H. run. rewrite !alter_insert_eq. do 2 f_equal. f_equal.
  unfold document. rewrite !append_assoc. reflexivity.
Qed.

Lemma save_to_markdown_refused metadata transcript w e :
  open_error env (report_path env metadata) = Some e →
  save_to_markdown env metadata transcript w =
    (Raise e, add_events w [CallOpen (report_path env metadata)]).
Proof.
  intros H. unfold save_to_markdown, open_w, write. run.
  fold (report_name env metadata). fold (report_path env metadata).
  rewrite H. run. reflexivity.
Qed.

End MoreRuns.

(** *** The driver *)

Section Driver.

Context {T : Type} (env : Env T).

Lemma main_no_reference w :
  raw_input env = "" → main env w = (Ok None, prompted env w).
Proof.
  unfold main, raw_input, prompted, input_strip. run.
  destruct (length (argv env) <? 2)%nat; run; intros ->; reflexivity.
Qed.

(** The run of the driver on a non-empty reference, from the runs of the
    chain and of the assembler. *)
Lemma main_run w m w1 :
  raw_input env ≠ "" →
  get_video_metadata env (extract_video_id (raw_input env)) (prompted env w)
    = (Ok m, w1) →
  main env w =
    match transcript_lines env (extract_video_id (raw_input env))
            (translate_flag env) w1 with
    | (Raise e, w2) => (Raise e, w2)
    | (Ok lines, w2) =>
        if Py.truthy (Py.join nl lines) then
          match save_to_markdown env
                  (or_default (extract_video_id (raw_input env)) m)
                  (Py.join nl lines) (add_events w2 [CallPrint m]) with
          | (Ok _, w4) => (Ok None, w4)
          | (Raise e, w4) => (Raise e, w4)
          end
        else (Ok None, add_events w2 [CallPrint m])
    end.
Proof.
  intros Hraw%truthy_nonempty Hm.
  unfold main, get_transcript. fold (translate_flag env).
  unfold raw_input, prompted, input_strip, add_events, nl in *. run.
  destruct (length (argv env) <? 2)%nat; run; rewrite Hraw; cbn [negb];
    rewrite Hm;
    destruct (transcript_lines _ _ _ w1) as [[lines|e] w2]; run; try reflexivity;
    destruct (Py.truthy (Py.join _ lines)); reflexivity.
Qed.

End Driver.

(** *** Widths of the printed numbers *)

Lemma Forall_seqZ_range (P : Z → Prop) (lo len : Z) :
  Forall P (seqZ lo len) → ∀ n, lo ≤ n < lo + len → P n.
Proof.
  intros H n Hn. rewrite Forall_forall in H. apply H.
  apply elem_of_seqZ. lia.
Qed.

Lemma format_02d_width (n : Z) :
  0 ≤ n < 100 → String.length (Py.format_02d n) = 2%nat.
Proof.
  apply (Forall_seqZ_range (λ n, String.length (Py.format_02d n) = 2%nat) 0 100).
  apply Forall_forall. intros x Hx%list_elem_of_In.
  assert (forallb (λ n, (String.length (Py.format_02d n) =? 2)%nat) (seqZ 0 100) = true)
    as Hall by (vm_compute; reflexivity).
  rewrite forallb_forall in Hall. apply Nat.eqb_eq, Hall, Hx.
Qed.

Lemma format_04d_width (n : Z) :
  1000 ≤ n < 10000 → String.length (Py.format_04d n) = 4%nat.
Proof.
  intros Hn.
  apply (Forall_seqZ_range (λ n, String.length (Py.format_04d n) = 4%nat) 1000 9000);
    [|lia].
  apply Forall_forall. intros x Hx%list_elem_of_In.
  assert (forallb (λ n, (String.length (Py.format_04d n) =? 4)%nat) (seqZ 1000 9000) = true)
    as Hall by (vm_compute; reflexivity).
  rewrite forallb_forall in Hall. apply Nat.eqb_eq, Hall, Hx.
Qed.

Lemma strftime_width (now : DateTime) :
  valid_clock now → String.length (strftime now) = 15%nat.
Proof.
  intros (Hy & Hm & Hd & HH & HM & HS). unfold strftime.
  rewrite !length_append, format_04d_width, !format_02d_width by lia.
  reflexivity.
Qed.

(** *** The substitution of [sanitize_filename] *)

Lemma forbidden_stripped (c : ascii) :
  Re.forbidden c = true ↔ c ∈ stripped_chars.
Proof.
  unfold Re.forbidden, stripped_chars.
  rewrite !orb_true_iff, !Ascii.eqb_eq.
  rewrite !elem_of_cons, elem_of_nil. tauto.
Qed.

Lemma sanitize_filename_filter (s : string) :
  list_ascii_of_string (sanitize_filename s)
  = filter (λ c, c ∉ stripped_chars) (list_ascii_of_string s).
Proof.
  unfold sanitize_filename.
  induction s as [|c s IH]; [reflexivity|].
  cbn [Re.sub_class_empty list_ascii_of_string].
  destruct (Re.forbidden c) eqn:Hc.
  - rewrite filter_cons_False; [exact IH|].
    intros Hn. apply Hn, forbidden_stripped, Hc.
  - rewrite filter_cons_True.
    + cbn [list_ascii_of_string]. rewrite IH. reflexivity.
    + intros Hin%forbidden_stripped. congruence.
Qed.

(** ** Report writer *)

(** C6. Whenever the file can be opened, [save_to_markdown] returns the
    name [<YYYYMMDD_HHMMSS>_<sanitized title>.md] and leaves under
    [output/] and that name exactly the document: heading with the title,
    blank line, bold channel label and channel, blank line, bold URL label
    and url, blank line, rule, blank line, transcript heading, blank line,
    transcript.  The sanitized title is the title without the nine
    characters backslash, slash, star, question mark, colon, double quote,
    less-than, greater-than and bar, and nothing else is removed. *)
Theorem save_to_markdown_layout {T} (env : Env T) (metadata : Metadata)
    (transcript : string) (w : World) :
  let now := clock env in
  let time_str :=
    Py.format_04d (year now) +:+ Py.format_02d (month now)
    +:+ Py.format_02d (day now) +:+ "_" +:+ Py.format_02d (hour now)
    +:+ Py.format_02d (minute now) +:+ Py.format_02d (second now) in
  let file_name := time_str +:+ "_" +:+ sanitize_filename (title metadata) +:+ ".md" in
  open_error env ("output/" +:+ file_name) = None →
  (save_to_markdown env metadata transcript w).1 = Ok file_name
  ∧ files (save_to_markdown env metadata transcript w).2
    = <["output/" +:+ file_name :=
          "# " +:+ title metadata +:+ nl +:+ nl
          +:+ "**채널명:** " +:+ channel metadata +:+ nl +:+ nl
          +:+ "**URL:** " +:+ url metadata +:+ nl +:+ nl
          +:+ "---" +:+ nl +:+ nl
          +:+ "## 트랜스크립트" +:+ nl +:+ nl
          +:+ transcript]> (files w)
  ∧ list_ascii_of_string (sanitize_filename (title metadata))
    = filter (λ c, c ∉ [Re.backslash; "/"; "*"; "?"; ":"; Re.dquote; "<"; ">"; "|"]%char)
        (list_ascii_of_string (title metadata))
  ∧ (valid_clock now → String.length time_str = 15%nat).
Proof.
  intros now time_str file_name Hopen.
  rewrite (save_to_markdown_written env metadata transcript w Hopen).
  split; [reflexivity|]. split; [reflexivity|].
  split; [apply sanitize_filename_filter | apply strftime_width].
Qed.

Lemma save_to_markdown_layout_witness :
  (save_to_markdown env_scraped
     {| title := "A: title?"; channel := "Some Channel";
        url := "https://www.youtube.com/watch?v=dQw4w9WgXcQ" |}
     "[00:00:00](https://www.youtube.com/watch?v=dQw4w9WgXcQ&t=0s) hi" world0).1
  = Ok "20261104_090507_A title.md".
Proof.
  exact (proj1 (save_to_markdown_layout env_scraped
     {| title := "A: title?"; channel := "Some Channel";
        url := "https://www.youtube.com/watch?v=dQw4w9WgXcQ" |}
     "[00:00:00](https://www.youtube.com/watch?v=dQw4w9WgXcQ&t=0s) hi" world0
     eq_refl)).
Defined.

(** ** Pipeline driver and transcript failure *)

Section DriverProperties.

Context {T : Type} (env : Env T).

Lemma files_prompted w : files (prompted env w) = files w.
Proof. unfold prompted. destruct (length (argv env) <? 2)%nat; reflexivity. Qed.

(** A transcript with an entry is a non-empty string. *)
Lemma transcript_lines_truthy video_id translate w entries :
  transcript_api env video_id languages = inr entries → entries ≠ [] →
  ∃ lines w', transcript_lines env video_id translate w = (Ok lines, w')
    ∧ files w' = files w ∧ Py.truthy (Py.join nl lines) = true.
Proof.
  intros H Hne. destruct entries as [|entry entries]; [congruence|].
  destruct translate.
  - rewrite (transcript_lines_translating env _ w _ H).
    eexists _, _. split; [reflexivity|]. split; [reflexivity|].
    cbn [map translations].
    destruct (translate_api env (new_translator env) (text entry) "ko") as [r tr'].
    cbn [paired_lines]. exact (truthy_join_cons _ _ _).
  - rewrite (transcript_lines_plain env _ w _ H).
    eexists _, _. split; [reflexivity|]. split; [reflexivity|].
    exact (truthy_join_cons _ _ _).
Qed.

(** What a run leaves on disk: nothing new, or one report built from one
    metadata record. *)
Lemma main_files w :
  files (main env w).2 = files w
  ∨ ∃ m w0 w1 transcript,
      get_video_metadata env (extract_video_id (raw_input env)) w0 = (Ok m, w1)
      ∧ files (main env w).2
        = <[report_path env (or_default (extract_video_id (raw_input env)) m)
            := document (or_default (extract_video_id (raw_input env)) m) transcript]>
            (files w).
Proof.
  destruct (decide (raw_input env = "")) as [Hraw|Hraw].
  { left. rewrite (main_no_reference env w Hraw). apply files_prompted. }
  destruct (get_video_metadata_total env (extract_video_id (raw_input env))
              (prompted env w)) as (m & evs & Hm).
  rewrite (main_run env w m _ Hraw Hm).
  pose proof (transcript_lines_files env (extract_video_id (raw_input env))
                (translate_flag env) (add_events (prompted env w) evs)) as Hf.
  destruct (transcript_lines _ _ _ _) as [[lines|e] w2]; cbn [snd] in Hf.
  2:{ left. cbn [snd]. rewrite Hf. apply files_prompted. }
  destruct (Py.truthy (Py.join nl lines)).
  2:{ left. cbn [snd]. rewrite files_add_events, Hf. apply files_prompted. }
  destruct (open_error env (report_path env
              (or_default (extract_video_id (raw_input env)) m))) as [e|] eqn:Hopen.
  - left. rewrite (save_to_markdown_refused env _ _ _ _ Hopen). cbn [snd].
    rewrite !files_add_events, Hf. apply files_prompted.
  - right. exists m, (prompted env w), (add_events (prompted env w) evs), (Py.join nl lines).
    split; [exact Hm|].
    rewrite (save_to_markdown_written env _ _ _ Hopen). cbn [snd files].
    rewrite files_add_events, Hf, files_add_events, files_prompted. reflexivity.
Qed.

End DriverProperties.

(** C1, as the program has it.  When the transcript provider raises,
    [get_transcript] raises the same exception and so does the driver; when
    the provider returns no entry, [get_transcript] returns the empty
    string without raising and the driver ends normally, skipping the
    report.  In both cases no file is written. *)
Theorem transcript_unavailable_no_report {T} (env : Env T) (w : World) :
  let video_id := extract_video_id (raw_input env) in
  raw_input env ≠ "" →
  (∀ e, transcript_api env video_id languages = inl e →
     (∀ translate w', (get_transcript env video_id translate w').1 = Raise e)
     ∧ (main env w).1 = Raise e
     ∧ files (main env w).2 = files w)
  ∧ (transcript_api env video_id languages = inr [] →
     (∀ translate w', (get_transcript env video_id translate w').1 = Ok "")
     ∧ (main env w).1 = Ok None
     ∧ files (main env w).2 = files w).
Proof.
  intros video_id Hraw.
  destruct (get_video_metadata_total env video_id (prompted env w)) as (m & evs & Hm).
  rewrite (main_run env w m _ Hraw Hm). fold video_id.
  split.
  - intros e He. split.
    + intros translate w'. rewrite get_transcript_lines.
      rewrite (transcript_lines_raises env _ translate w' _ He). reflexivity.
    + rewrite (transcript_lines_raises env _ _ _ _ He). cbn [fst snd].
      split; [reflexivity|]. rewrite !files_add_events. apply files_prompted.
  - intros He.
    assert (∀ translate w', transcript_lines env video_id translate w'
              = (Ok [], add_events w' [CallTranscriptApi video_id languages])) as Hl.
    { intros [|] w'.
      - rewrite (transcript_lines_translating env _ w' _ He). reflexivity.
      - rewrite (transcript_lines_plain env _ w' _ He). reflexivity. }
    split.
    + intros translate w'. rewrite get_transcript_lines, Hl. reflexivity.
    + rewrite Hl. cbn [Py.join String.concat Py.truthy fst snd].
      split; [reflexivity|]. rewrite !files_add_events. apply files_prompted.
Qed.

Lemma transcript_unavailable_no_report_witness :
  (main env_raises world0).1 = Raise (Exception "TranscriptsDisabled")
  ∧ files (main env_raises world0).2 = files world0
  ∧ (main env_empty world0).1 = Ok None
  ∧ files (main env_empty world0).2 = files world0.
Proof.
  assert (raw_input env_raises ≠ "") as H1 by (vm_compute; discriminate).
  assert (raw_input env_empty ≠ "") as H2 by (vm_compute; discriminate).
  destruct (transcript_unavailable_no_report env_raises world0 H1) as [Hr _].
  destruct (transcript_unavailable_no_report env_empty world0 H2) as [_ He].
  destruct (Hr (Exception "TranscriptsDisabled") eq_refl) as (_ & Hr1 & Hr2).
  destruct (He eq_refl) as (_ & He1 & He2).
  exact (conj Hr1 (conj Hr2 (conj He1 He2))).
Defined.

(** C1, as stated, fails on a provider that returns no entry: the assembly
    does not fail, it returns the empty string, and the run ends normally. *)
Lemma get_transcript_empty_is_not_a_failure :
  transcript_api env_empty "dQw4w9WgXcQ" languages = inr []
  ∧ (get_transcript env_empty "dQw4w9WgXcQ" false world0).1 = Ok ""
  ∧ (∀ e, (get_transcript env_empty "dQw4w9WgXcQ" false world0).1 ≠ Raise e)
  ∧ (main env_empty world0).1 = Ok None.
Proof.
  split; [reflexivity|]. split; [reflexivity|]. split; [|reflexivity].
  intros e. vm_compute. discriminate.
Qed.

(** C2, as the program has it.  On every run that assembles a non-empty
    transcript and opens the report file, the report writer returns the
    name of the file to the driver, the file is on disk under [output/],
    and the driver itself returns none; no run of the driver returns a
    filename. *)
Theorem main_returns_none {T} (env : Env T) (w : World) :
  (∀ file_name, (main env w).1 ≠ Ok (Some file_name))
  ∧ ∀ m w1 transcript,
      let video_id := extract_video_id (raw_input env) in
      let metadata := or_default video_id m in
      raw_input env ≠ "" →
      get_video_metadata env video_id (prompted env w) = (Ok m, w1) →
      (get_transcript env video_id (translate_flag env) w1).1 = Ok transcript →
      transcript ≠ "" →
      open_error env ("output/" +:+ report_name env metadata) = None →
      (main env w).1 = Ok None
      ∧ (∀ w', (save_to_markdown env metadata transcript w').1
               = Ok (report_name env metadata))
      ∧ files (main env w).2
        = <["output/" +:+ report_name env metadata := document metadata transcript]>
            (files w).
Proof.
  split.
  - intros file_name.
    destruct (decide (raw_input env = "")) as [Hraw|Hraw].
    { rewrite (main_no_reference env w Hraw). discriminate. }
    destruct (get_video_metadata_total env (extract_video_id (raw_input env))
                (prompted env w)) as (m & evs & Hm).
    rewrite (main_run env w m _ Hraw Hm).
    destruct (transcript_lines _ _ _ _) as [[lines|e] w2]; [|discriminate].
    destruct (Py.truthy _); [|discriminate].
    destruct (save_to_markdown _ _ _ _) as [[name|e] w4]; discriminate.
  - intros m w1 transcript video_id metadata Hraw Hm Ht Hne Hopen.
    rewrite (main_run env w m _ Hraw Hm). fold video_id. fold metadata.
    rewrite get_transcript_lines in Ht.
    pose proof (transcript_lines_files env video_id (translate_flag env) w1) as Hf.
    destruct (transcript_lines _ _ _ _) as [[lines|e] w2]; [|discriminate].
    cbn [fst snd] in Ht, Hf. injection Ht as <-.
    apply truthy_nonempty in Hne. rewrite Hne.
    fold (report_path env metadata) in Hopen.
    rewrite (save_to_markdown_written env _ _ _ Hopen). cbn [fst snd files].
    split; [reflexivity|]. split.
    + intros w'. rewrite (save_to_markdown_written env _ _ _ Hopen). reflexivity.
    + rewrite files_add_events, Hf.
      destruct (get_video_metadata_total env video_id (prompted env w))
        as (m' & evs & Hm').
      rewrite Hm in Hm'. injection Hm' as _ ->.
      rewrite files_add_events, files_prompted. reflexivity.
Qed.

Lemma main_returns_none_witness :
  (main env_scraped world0).1 = Ok None
  ∧ files (main env_scraped world0).2 !! "output/20261104_090507_A title.md"
    = Some (document
              {| title := "A: title?"; channel := "Some Channel";
                 url := "https://www.youtube.com/watch?v=dQw4w9WgXcQ" |}
              "[01:01:01](https://www.youtube.com/watch?v=dQw4w9WgXcQ&t=3661s) hi").
Proof.
  assert (raw_input env_scraped ≠ "") as Hraw by (vm_compute; discriminate).
  assert ("[01:01:01](https://www.youtube.com/watch?v=dQw4w9WgXcQ&t=3661s) hi" ≠ "")
    as Hne by discriminate.
  destruct (main_returns_none env_scraped world0) as [_ H].
  destruct (H _ _ _ Hraw eq_refl eq_refl Hne eq_refl) as (H1 & _ & H3).
  split; [exact H1|]. rewrite H3. apply lookup_insert_eq.
Defined.

(** C2, as stated, fails: this run assembles the transcript and persists
    the report, and the driver returns none, not the name of the file. *)
Lemma main_discards_the_filename :
  files (main env_scraped world0).2 !! "output/20261104_090507_A title.md"
    = Some (document
              {| title := "A: title?"; channel := "Some Channel";
                 url := "https://www.youtube.com/watch?v=dQw4w9WgXcQ" |}
              "[01:01:01](https://www.youtube.com/watch?v=dQw4w9WgXcQ&t=3661s) hi")
  ∧ (main env_scraped world0).1 = Ok None
  ∧ (main env_scraped world0).1 ≠ Ok (Some "20261104_090507_A title.md").
Proof.
  split; [vm_compute; reflexivity|]. split; [reflexivity|].
  vm_compute. discriminate.
Qed.

(** ** Metadata fallback chain *)

(** C4. If the scraping provider returns a non-empty title, the chain
    returns that title and channel after the one call to the scraping
    provider: neither the environment nor the API provider is consulted.
    A call to the API provider happens only when the scraping provider
    failed and [YOUTUBE_API_KEY] holds a non-empty credential, and then it
    does happen. *)
Theorem metadata_short_circuit {T} (env : Env T) (video_id : string) (w : World) :
  (∀ t c, pytube_api env (watch_url video_id) = inr (t, c) → t ≠ "" →
     get_video_metadata env video_id w
     = (Ok (Some {| title := t; channel := c; url := watch_url video_id |}),
        add_events w [CallPytube (watch_url video_id)]))
  ∧ ∃ evs, events (get_video_metadata env video_id w).2 = events w ++ evs
      ∧ (∀ key id, CallPyyoutube key id ∈ evs →
           primary_failed env video_id
           ∧ environ env !! "YOUTUBE_API_KEY" = Some key ∧ key ≠ ""
           ∧ id = video_id)
      ∧ (∀ key, primary_failed env video_id →
           environ env !! "YOUTUBE_API_KEY" = Some key → key ≠ "" →
           CallPyyoutube key video_id ∈ evs).
Proof.
  split; [intros t c H Ht; exact (get_video_metadata_found env _ w _ _ H Ht)|].
  destruct (primary_failed_dec env video_id) as [H|(t & c & H & Ht)].
  - destruct (credential env) as [key|] eqn:Hc.
    + rewrite (get_video_metadata_credential env _ w _ H Hc).
      eexists. split; [reflexivity|].
      unfold credential in Hc.
      destruct (environ env !! "YOUTUBE_API_KEY") as [key'|]; [|discriminate].
      destruct (Py.truthy key') eqn:Hk; [|discriminate].
      injection Hc as ->. apply truthy_nonempty in Hk.
      split.
      * intros k id Hin. rewrite !elem_of_cons, elem_of_nil in Hin.
        destruct Hin as [?|[?|[Heq|[]]]]; try discriminate.
        injection Heq as -> ->. auto.
      * intros k _ Hk' _. injection Hk' as <-. set_solver.
    + rewrite (get_video_metadata_no_credential env _ w H Hc).
      eexists. split; [reflexivity|].
      split.
      * intros k id Hin. rewrite !elem_of_cons, elem_of_nil in Hin.
        destruct Hin as [?|[?|[]]]; discriminate.
      * intros k _ Hk Hne. unfold credential in Hc. rewrite Hk in Hc.
        apply truthy_nonempty in Hne. rewrite Hne in Hc. discriminate.
  - rewrite (get_video_metadata_found env _ w _ _ H Ht).
    eexists. split; [reflexivity|].
    split.
    + intros k id Hin. rewrite !elem_of_cons, elem_of_nil in Hin.
      destruct Hin as [?|[]]; discriminate.
    + intros k Hf. unfold primary_failed in Hf. rewrite H in Hf. congruence.
Qed.

Lemma metadata_short_circuit_witness :
  get_video_metadata env_scraped "dQw4w9WgXcQ" world0
  = (Ok (Some {| title := "A: title?"; channel := "Some Channel";
                 url := "https://www.youtube.com/watch?v=dQw4w9WgXcQ" |}),
     add_events world0 [CallPytube "https://www.youtube.com/watch?v=dQw4w9WgXcQ"]).
Proof.
  destruct (metadata_short_circuit env_scraped "dQw4w9WgXcQ" world0) as [H _].
  apply (H "A: title?" "Some Channel" eq_refl). discriminate.
Defined.

(** C9. Every record the chain returns, from either provider, has as url
    the watch URL built from the identifier. *)
Theorem metadata_url_canonical {T} (env : Env T) (video_id : string)
    (w w' : World) (m : Metadata) :
  get_video_metadata env video_id w = (Ok (Some m), w') →
  url m = "https://www.youtube.com/watch?v=" +:+ video_id.
Proof.
  destruct (primary_failed_dec env video_id) as [H|(t & c & H & Ht)].
  - destruct (credential env) as [key|] eqn:Hc.
    + rewrite (get_video_metadata_credential env _ w _ H Hc).
      destruct (pyyoutube_api env key video_id) as [e|[|item items]];
        intros Heq; inversion Heq. reflexivity.
    + rewrite (get_video_metadata_no_credential env _ w H Hc). discriminate.
  - rewrite (get_video_metadata_found env _ w _ _ H Ht).
    intros Heq. inversion Heq. reflexivity.
Qed.

Lemma metadata_url_canonical_witness :
  url {| title := "API title"; channel := "API channel";
         url := "https://www.youtube.com/watch?v=dQw4w9WgXcQ" |}
  = "https://www.youtube.com/watch?v=" +:+ "dQw4w9WgXcQ".
Proof.
  exact (metadata_url_canonical env_api "dQw4w9WgXcQ" world0 _ _ eq_refl).
Defined.

(** C5. When the scraping provider fails and the API provider is
    unavailable or fails, the chain returns none, and the report of the
    run, whenever one is written, is the document with the identifier as
    title, [Unknown] as channel and the watch URL as url; with a transcript
    entry and a file that opens, it is written.  In every run the metadata
    of the report is a record the chain returned or this default, whole. *)
Theorem default_metadata_when_unavailable {T} (env : Env T) (w : World) :
  let video_id := extract_video_id (raw_input env) in
  let default :=
    {| title := video_id; channel := "Unknown";
       url := "https://www.youtube.com/watch?v=" +:+ video_id |} in
  (primary_failed env video_id → secondary_failed env video_id →
     (∀ w', (get_video_metadata env video_id w').1 = Ok None)
     ∧ (files (main env w).2 = files w
        ∨ ∃ transcript,
            files (main env w).2
            = <[report_path env default := document default transcript]> (files w))
     ∧ (∀ entries,
          raw_input env ≠ "" →
          transcript_api env video_id languages = inr entries → entries ≠ [] →
          open_error env (report_path env default) = None →
          ∃ transcript,
            files (main env w).2 !! report_path env default
            = Some (document default transcript)))
  ∧ (files (main env w).2 = files w
     ∨ ∃ metadata transcript,
         files (main env w).2
         = <[report_path env metadata := document metadata transcript]> (files w)
         ∧ (metadata = default
            ∨ ∃ w0, (get_video_metadata env video_id w0).1 = Ok (Some metadata))).
Proof.
  intros video_id default.
  assert (primary_failed env video_id → secondary_failed env video_id →
          ∀ w', get_video_metadata env video_id w'
                = (Ok None, (get_video_metadata env video_id w').2)) as Hnone.
  { intros H1 H2 w'. unfold secondary_failed in H2.
    destruct (credential env) as [key|] eqn:Hc.
    - rewrite (get_video_metadata_credential env _ w' _ H1 Hc).
      destruct (pyyoutube_api env key video_id) as [e|[|item items]];
        try reflexivity. discriminate.
    - rewrite (get_video_metadata_no_credential env _ w' H1 Hc). reflexivity. }
  split.
  - intros H1 H2. split; [|split].
    + intros w'. rewrite (Hnone H1 H2). reflexivity.
    + destruct (main_files env w) as [Hf|(m & w0 & w1 & transcript & Hm & Hf)];
        [left; exact Hf|right].
      fold video_id in Hm, Hf. rewrite (Hnone H1 H2) in Hm.
      injection Hm as <- _. exists transcript. exact Hf.
    + intros entries Hraw He Hne Hopen.
      rewrite (main_run env w None _ Hraw (Hnone H1 H2 _)). fold video_id.
      destruct (transcript_lines_truthy env video_id (translate_flag env)
                  (get_video_metadata env video_id (prompted env w)).2 entries He Hne)
        as (lines & w2 & -> & _ & ->).
      change (or_default video_id None) with default.
      rewrite (save_to_markdown_written env _ _ _ Hopen). cbn [snd files].
      exists (Py.join nl lines). apply lookup_insert_eq.
  - destruct (main_files env w) as [Hf|(m & w0 & w1 & transcript & Hm & Hf)];
      [left; exact Hf|right].
    fold video_id in Hm, Hf.
    exists (or_default video_id m), transcript. split; [exact Hf|].
    destruct m as [m|]; [right|left; reflexivity].
    exists w0. rewrite Hm. reflexivity.
Qed.

Lemma default_metadata_when_unavailable_witness :
  ∃ transcript,
    files (main env_translate world0).2 !! "output/20261104_090507_dQw4w9WgXcQ.md"
    = Some (document
              {| title := "dQw4w9WgXcQ"; channel := "Unknown";
                 url := "https://www.youtube.com/watch?v=dQw4w9WgXcQ" |}
              transcript).
Proof.
  destruct (default_metadata_when_unavailable env_translate world0) as [H _].
  destruct (H I I) as (_ & _ & H3).
  assert (raw_input env_translate ≠ "") as Hraw by (vm_compute; discriminate).
  refine (H3 _ Hraw eq_refl _ eq_refl). discriminate.
Defined.

(** ** Reference resolver *)

Lemma token_sound (n : nat) (s t r : string) :
  Re.token n s = Some (t, r) →
  s = t +:+ r ∧ String.length t = n
  ∧ Forall (λ c, Re.id_char c = true) (list_ascii_of_string t).
Proof.
  revert s t r. induction n as [|n IH]; intros s t r H.
  - cbn in H. injection H as <- <-. repeat split. constructor.
  - cbn [Re.token] in H. destruct s as [|c s]; [discriminate|].
    destruct (Re.id_char c) eqn:Hc; [|discriminate].
    destruct (Re.token n s) as [[t' r']|] eqn:Ht; [|discriminate].
    injection H as <- <-. destruct (IH _ _ _ Ht) as (-> & <- & Hall).
    repeat split. cbn [list_ascii_of_string]. constructor; assumption.
Qed.

Lemma token_complete (t r : string) :
  Forall (λ c, Re.id_char c = true) (list_ascii_of_string t) →
  Re.token (String.length t) (t +:+ r) = Some (t, r).
Proof.
  induction t as [|c t IH]; intros Hall; [reflexivity|].
  cbn [list_ascii_of_string] in Hall. inversion Hall as [|? ? Hc Hall']; subst.
  rewrite append_cons. cbn [String.length Re.token]. rewrite Hc, (IH Hall').
  reflexivity.
Qed.

Lemma lead_sound (s r : string) :
  Re.lead s = Some r → ∃ p, (p = "v=" ∨ p = "/") ∧ s = p +:+ r.
Proof.
  intros H. destruct s as [|c s]; [discriminate|].
  destruct (decide (c = "/"%char)) as [->|Hs].
  { cbn in H. injection H as <-. exists "/". auto. }
  destruct (decide (c = "v"%char)) as [->|Hv].
  - destruct s as [|c' s]; [discriminate|].
    destruct (decide (c' = "="%char)) as [->|He].
    + cbn in H. injection H as <-. exists "v=". auto.
    + exfalso. destruct c' as [[] [] [] [] [] [] [] []]; cbn in H;
        first [discriminate | congruence].
  - exfalso. destruct c as [[] [] [] [] [] [] [] []]; cbn in H;
      first [discriminate | congruence].
Qed.

Lemma lead_complete (p r : string) :
  p = "v=" ∨ p = "/" → Re.lead (p +:+ r) = Some r.
Proof. intros [->| ->]; reflexivity. Qed.

Lemma tail_follows (r : string) : Re.tail r = true ↔ Pattern.follows r.
Proof.
  unfold Pattern.follows, Re.tail. destruct r as [|c r].
  { split; auto. }
  rewrite !orb_true_iff, andb_true_iff, !Ascii.eqb_eq, String.eqb_eq. split.
  - intros [[[H|H]|H]|[H1 H2]]; subst; eauto 8.
  - intros [H|[H|(c' & r' & H & Hc)]]; [discriminate| |].
    + injection H as -> ->. auto.
    + injection H as -> ->. tauto.
Qed.

Lemma spec_tail_follows (r : string) :
  Pattern.spec_tail r = true ↔ Pattern.spec_follows r.
Proof.
  unfold Pattern.spec_follows, Pattern.spec_tail. destruct r as [|c r].
  { split; auto. }
  rewrite !orb_true_iff, !Ascii.eqb_eq. split.
  - intros H. right. exists c, r. tauto.
  - intros [H|(c' & r' & H & Hc)]; [discriminate|].
    injection H as -> ->. tauto.
Qed.

Section FinderCorrect.

Variable fol : string → Prop.
Variable fol_dec : string → bool.
Hypothesis fol_reflect : ∀ r, fol_dec r = true ↔ fol r.

Lemma find_here_sound (s t : string) :
  Pattern.find_here fol_dec s = Some t → Pattern.occurs_at fol s "" t.
Proof.
  unfold Pattern.find_here. intros H.
  destruct (Re.lead s) as [r|] eqn:Hl; [|discriminate].
  destruct (Re.token 11 r) as [[t' r']|] eqn:Ht; [|discriminate].
  destruct (fol_dec r') eqn:Hf; [|discriminate]. injection H as ->.
  destruct (lead_sound _ _ Hl) as (p & Hp & ->).
  destruct (token_sound _ _ _ _ Ht) as (-> & Hlen & Hall).
  exists p, r'. repeat split; try assumption. apply fol_reflect, Hf.
Qed.

Lemma find_here_complete (s t : string) :
  Pattern.occurs_at fol s "" t → Pattern.find_here fol_dec s = Some t.
Proof.
  intros (p & rest & -> & Hp & [Hlen Hall] & Hf).
  unfold Pattern.find_here. change ("" +:+ p +:+ t +:+ rest) with (p +:+ t +:+ rest).
  rewrite (lead_complete _ _ Hp), <- Hlen, (token_complete _ _ Hall).
  apply fol_reflect in Hf. rewrite Hf. reflexivity.
Qed.

Lemma occurs_at_cons (c : ascii) (s pre t : string) :
  Pattern.occurs_at fol (String c s) (String c pre) t ↔ Pattern.occurs_at fol s pre t.
Proof.
  unfold Pattern.occurs_at. split; intros (p & rest & H & Hrest).
  - rewrite append_cons in H. injection H as ->. eauto.
  - subst s. exists p, rest. rewrite append_cons. auto.
Qed.

Lemma occurs_at_head (s pre t : string) :
  Pattern.occurs_at fol s pre t →
  pre = "" ∨ ∃ c s' pre', s = String c s' ∧ pre = String c pre'
                          ∧ Pattern.occurs_at fol s' pre' t.
Proof.
  intros H. destruct pre as [|c pre']; [left; reflexivity|right].
  pose proof H as (p & rest & Hs & _). rewrite append_cons in Hs.
  destruct s as [|c' s']; [discriminate|]. injection Hs as -> Hs.
  exists c, s', pre'. repeat split. apply (occurs_at_cons c), H.
Qed.

Lemma find_none (s : string) :
  Pattern.find fol_dec s = None → ¬ Pattern.occurs fol s.
Proof.
  induction s as [|c s IH]; cbn [Pattern.find];
    destruct (Pattern.find_here fol_dec _) eqn:Hh; try discriminate;
    intros Hfind (pre & t & Hocc);
    destruct (occurs_at_head _ _ _ Hocc) as [->|(c' & s' & pre' & Hs & -> & Hocc')];
    try (apply find_here_complete in Hocc; congruence); try discriminate.
  injection Hs as <- <-. apply (IH Hfind). exists pre', t. exact Hocc'.
Qed.

Lemma find_leftmost (s pre t : string) :
  Pattern.leftmost fol s pre t → Pattern.find fol_dec s = Some t.
Proof.
  revert pre. induction s as [|c s IH]; intros pre [Hocc Hmin].
  - destruct (occurs_at_head _ _ _ Hocc) as [->|(c' & s' & pre' & Hs & _)];
      [|discriminate].
    cbn [Pattern.find]. rewrite (find_here_complete _ _ Hocc). reflexivity.
  - destruct (occurs_at_head _ _ _ Hocc) as [->|(c' & s' & pre' & Hs & -> & Hocc')].
    { cbn [Pattern.find]. rewrite (find_here_complete _ _ Hocc). reflexivity. }
    injection Hs as <- <-. cbn [Pattern.find].
    destruct (Pattern.find_here fol_dec (String c s)) as [t0|] eqn:Hh.
    { apply find_here_sound in Hh. apply Hmin in Hh. cbn in Hh. lia. }
    apply (IH pre'). split; [exact Hocc'|].
    intros pre2 t2 H2. apply (occurs_at_cons c) in H2. apply Hmin in H2.
    cbn [String.length] in H2. lia.
Qed.

Lemma find_some (s t : string) :
  Pattern.find fol_dec s = Some t → ∃ pre, Pattern.leftmost fol s pre t.
Proof.
  induction s as [|c s IH]; cbn [Pattern.find];
    destruct (Pattern.find_here fol_dec _) as [t0|] eqn:Hh; try discriminate.
  - intros H. injection H as H. subst t0.
    exists "". split; [apply find_here_sound, Hh|]. intros; cbn; lia.
  - intros Hfind. destruct (IH Hfind) as (pre & Hocc & Hmin).
    exists (String c pre). split; [apply occurs_at_cons, Hocc|].
    intros pre2 t2 H2.
    destruct (occurs_at_head _ _ _ H2) as [->|(c' & s' & pre' & Hs & -> & Hocc')].
    + apply find_here_complete in H2. congruence.
    + injection Hs as <- <-. apply Hmin in Hocc'. cbn [String.length]. lia.
Qed.

End FinderCorrect.

Lemma search_find (s : string) : Re.search s = Pattern.find Re.tail s.
Proof. induction s as [|c s IH]; cbn [Re.search Pattern.find]; rewrite ?IH; reflexivity. Qed.

(** C7, as the program has it.  The pattern is an 11-character token of
    [0-9A-Za-z_-] preceded by [v=] or [/] and followed by [?], [&], [/],
    the end of the string, or one newline that ends the string.  An input
    in which it does not occur is returned unchanged; an input in which it
    occurs yields the token captured by the leftmost occurrence. *)
Theorem extract_video_id_pattern (input_str : string) :
  (¬ Pattern.occurs Pattern.follows input_str →
     extract_video_id input_str = input_str)
  ∧ (∀ pre tok, Pattern.leftmost Pattern.follows input_str pre tok →
       extract_video_id input_str = tok)
  ∧ (Pattern.occurs Pattern.follows input_str →
       ∃ pre tok, Pattern.leftmost Pattern.follows input_str pre tok
         ∧ extract_video_id input_str = tok
         ∧ String.length tok = 11%nat).
Proof.
  unfold extract_video_id. rewrite search_find.
  split; [|split].
  - intros Hno. destruct (Pattern.find Re.tail input_str) as [t|] eqn:Hf; [|reflexivity].
    exfalso. apply Hno.
    destruct (find_some _ _ tail_follows _ _ Hf) as (pre & Hocc & _).
    exists pre, t. exact Hocc.
  - intros pre tok Hleft.
    rewrite (find_leftmost _ _ tail_follows _ _ _ Hleft). reflexivity.
  - intros Hocc. destruct (Pattern.find Re.tail input_str) as [t|] eqn:Hf.
    + destruct (find_some _ _ tail_follows _ _ Hf) as (pre & Hleft).
      exists pre, t. split; [exact Hleft|]. split; [reflexivity|].
      destruct Hleft as [(p & rest & _ & _ & [Hlen _] & _) _]. exact Hlen.
    + exfalso. exact (find_none _ _ tail_follows _ Hf Hocc).
Qed.

Lemma extract_video_id_pattern_witness :
  extract_video_id "v=dQw4w9WgXcQ&t=43s" = "dQw4w9WgXcQ"
  ∧ extract_video_id "dQw4w9WgXcQ" = "dQw4w9WgXcQ".
Proof.
  split.
  - apply (proj1 (proj2 (extract_video_id_pattern "v=dQw4w9WgXcQ&t=43s")) "").
    split.
    + exists "v=", "&t=43s". split; [reflexivity|]. split; [left; reflexivity|].
      split; [split; [reflexivity|repeat constructor]|].
      right. right. exists "&"%char, "t=43s". split; [reflexivity|]. right. left. reflexivity.
    + intros pre' tok' _. cbn. lia.
  - apply (proj1 (extract_video_id_pattern "dQw4w9WgXcQ")).
    apply (find_none _ _ tail_follows). reflexivity.
Defined.

(** C7, as stated, fails on a reference that ends in a newline: the
    pattern with only [?], [&], [/] or the end of the string after the
    token does not occur in it, and yet it is not returned unchanged. *)
Lemma newline_reference_is_resolved :
  ¬ Pattern.occurs Pattern.spec_follows newline_reference
  ∧ extract_video_id newline_reference = "abcdefghijk"
  ∧ extract_video_id newline_reference ≠ newline_reference.
Proof.
  split; [|split].
  - apply (find_none _ _ spec_tail_follows). reflexivity.
  - reflexivity.
  - vm_compute. discriminate.
Qed.

(** ** Timestamp formatter *)

Lemma str_of_int_nonempty (n : Z) : (1 ≤ String.length (Py.str_of_int n))%nat.
Proof.
  unfold Py.str_of_int, NilZero.string_of_int, NilZero.string_of_uint.
  destruct (Z.to_int n) as [d|d]; destruct d; cbn; lia.
Qed.

Lemma format_02d_min_width (n : Z) : (2 ≤ String.length (Py.format_02d n))%nat.
Proof.
  unfold Py.format_02d. pose proof (str_of_int_nonempty n) as H.
  destruct (String.length (Py.str_of_int n) <? 2)%nat eqn:Hlt.
  - rewrite length_append. cbn. lia.
  - apply Nat.ltb_ge in Hlt. exact Hlt.
Qed.

(** C8. For a non-negative offset the formatter works on the whole number
    of seconds obtained by truncation, not rounding: the three fields are
    its hours, its minutes within the hour and its seconds within the
    minute, each padded with zeros to two digits; minutes and seconds have
    exactly two digits and the hours at least two.  In particular
    [format(0)], [format(3661)] and [format(59.9)] are [00:00:00],
    [01:01:01] and [00:00:59]; the last also for the binary64 number that
    the literal [59.9] denotes. *)
Theorem format_timestamp_truncates (seconds : Q) :
  (0 <= seconds)%Q →
  let n := Py.int seconds in
  0 ≤ n
  ∧ (inject_Z n <= seconds)%Q ∧ (seconds < inject_Z (n + 1))%Q
  ∧ format_timestamp seconds
    = Py.format_02d (n / 3600) +:+ ":" +:+ Py.format_02d (n mod 3600 / 60)
      +:+ ":" +:+ Py.format_02d (n mod 60)
  ∧ format_timestamp seconds = format_timestamp (inject_Z n)
  ∧ (2 ≤ String.length (Py.format_02d (n / 3600)))%nat
  ∧ String.length (Py.format_02d (n mod 3600 / 60)) = 2%nat
  ∧ String.length (Py.format_02d (n mod 60)) = 2%nat
  ∧ format_timestamp 0 = "00:00:00"
  ∧ format_timestamp 3661 = "01:01:01"
  ∧ format_timestamp (599 # 10) = "00:00:59"
  ∧ format_timestamp (8430175552484147 # 140737488355328) = "00:00:59".
Proof.
  intros Hpos n. destruct (int_nonneg seconds Hpos) as [Hn Hn0].
  subst n. rewrite Hn.
  split; [exact Hn0|]. split; [apply Qfloor_le|]. split; [apply Qlt_floor|].
  split; [apply format_timestamp_floor|].
  split; [rewrite !format_timestamp_floor, Qfloor_Z; reflexivity|].
  split; [apply format_02d_min_width|].
  split; [apply format_02d_width|].
  { pose proof (Z.mod_pos_bound (Qfloor seconds) 3600 ltac:(lia)) as Hb.
    split; [apply Z.div_pos; lia|].
    apply Z.div_lt_upper_bound; lia. }
  split; [apply format_02d_width|].
  { pose proof (Z.mod_pos_bound (Qfloor seconds) 60 ltac:(lia)). lia. }
  repeat split; vm_compute; reflexivity.
Qed.

Lemma format_timestamp_truncates_witness :
  format_timestamp (599 # 10)
  = Py.format_02d (59 / 3600) +:+ ":" +:+ Py.format_02d (59 mod 3600 / 60)
    +:+ ":" +:+ Py.format_02d (59 mod 60).
Proof.
  assert (0 <= 599 # 10)%Q as H by (vm_compute; discriminate).
  exact (proj1 (proj2 (proj2 (proj2 (format_timestamp_truncates (599 # 10) H))))).
Defined.

(** ** Transcript assembler *)

Lemma length_translations {T} (env : Env T) (translator : T) (texts : list string) :
  length (translations env translator texts) = length texts.
Proof.
  revert translator. induction texts as [|t texts IH]; intros translator;
    [reflexivity|].
  cbn [translations]. destruct (translate_api env translator t "ko") as [r tr'].
  cbn [length]. rewrite IH. reflexivity.
Qed.

Lemma length_paired_lines base_url entries (answers : list (Exn + string)) :
  length answers = length entries →
  length (paired_lines base_url entries answers) = (2 * length entries)%nat.
Proof.
  revert answers. induction entries as [|entry entries IH];
    intros [|answer answers] Hlen; try discriminate; [reflexivity|].
  cbn [paired_lines length]. rewrite IH by (cbn in Hlen; lia). lia.
Qed.

(** Lines [2 i] and [2 i + 1] belong to entry [i]. *)
Lemma paired_lines_lookup base_url entries (answers : list (Exn + string))
    (i : nat) entry answer :
  entries !! i = Some entry → answers !! i = Some answer →
  paired_lines base_url entries answers !! (2 * i)%nat
    = Some (timestamp_link base_url entry +:+ " " +:+ text entry)
  ∧ paired_lines base_url entries answers !! (2 * i + 1)%nat
    = Some (second_line (timestamp_link base_url entry) answer).
Proof.
  revert entries answers.
  induction i as [|i IH]; intros [|entry' entries] [|answer' answers] He Ha;
    try discriminate.
  - cbn in He, Ha. injection He as ->. injection Ha as ->. split; reflexivity.
  - cbn in He, Ha. destruct (IH _ _ He Ha) as [H1 H2].
    replace (2 * S i)%nat with (S (S (2 * i))) by lia.
    replace (S (S (2 * i)) + 1)%nat with (S (S (2 * i + 1))) by lia.
    cbn [paired_lines]. split; assumption.
Qed.

Lemma timestamp_link_deep (video_id : string) (entry : Entry) :
  (0 <= start entry)%Q →
  timestamp_link (watch_url video_id) entry
  = deep_link video_id (Py.int (start entry)).
Proof.
  intros Hpos. destruct (int_nonneg _ Hpos) as [Hn _].
  unfold timestamp_link, deep_link, hms, watch_url.
  rewrite format_timestamp_floor, Hn, !append_assoc. reflexivity.
Qed.

(** C3. With translation enabled the assembly never raises on a
    translation failure: for a transcript of N entries it produces 2N
    lines, two per entry in the order of the transcript, the second one
    carrying the translation when the call for that entry returned and the
    fixed error placeholder when it raised.  So with a provider that fails
    on entry [k] only, the second line of entry [k] carries the placeholder
    and the second line of every other entry its genuine translation. *)
Theorem translation_failure_is_entry_scoped {T} (env : Env T)
    (video_id : string) (entries : list Entry) (w : World) :
  let answers := translations env (new_translator env) (map text entries) in
  transcript_api env video_id languages = inr entries →
  ∃ lines w',
    transcript_lines env video_id true w = (Ok lines, w')
    ∧ get_transcript env video_id true w = (Ok (Py.join nl lines), w')
    ∧ length lines = (2 * length entries)%nat
    ∧ (∀ i entry, entries !! i = Some entry →
        let link := timestamp_link (watch_url video_id) entry in
        lines !! (2 * i)%nat = Some (link +:+ " " +:+ text entry)
        ∧ (∀ e, answers !! i = Some (inl e) →
             lines !! (2 * i + 1)%nat = Some (link +:+ " (한글 번역) 오류 발생"))
        ∧ (∀ translated, answers !! i = Some (inr translated) →
             lines !! (2 * i + 1)%nat
             = Some (link +:+ " (한글 번역) " +:+ translated)))
    ∧ ∀ k,
        (∃ e, answers !! k = Some (inl e)) →
        (∀ i, i ≠ k → (i < length entries)%nat →
           ∃ translated, answers !! i = Some (inr translated)) →
        ∀ i entry, entries !! i = Some entry →
          let link := timestamp_link (watch_url video_id) entry in
          lines !! (2 * i)%nat = Some (link +:+ " " +:+ text entry)
          ∧ (i = k →
             lines !! (2 * i + 1)%nat = Some (link +:+ " (한글 번역) 오류 발생"))
          ∧ (i ≠ k →
             ∃ translated, answers !! i = Some (inr translated)
               ∧ lines !! (2 * i + 1)%nat
                 = Some (link +:+ " (한글 번역) " +:+ translated)).
Proof.
  intros answers Hentries.
  eexists _, _. split; [exact (transcript_lines_translating env _ w _ Hentries)|].
  split.
  { rewrite get_transcript_lines, (transcript_lines_translating env _ w _ Hentries).
    reflexivity. }
  fold answers.
  assert (length answers = length entries) as Hlen.
  { unfold answers. rewrite length_translations, length_map. reflexivity. }
  split; [apply length_paired_lines, Hlen|].
  assert (∀ i entry, entries !! i = Some entry →
            ∃ answer, answers !! i = Some answer
              ∧ paired_lines (watch_url video_id) entries answers !! (2 * i)%nat
                = Some (timestamp_link (watch_url video_id) entry +:+ " " +:+ text entry)
              ∧ paired_lines (watch_url video_id) entries answers !! (2 * i + 1)%nat
                = Some (second_line (timestamp_link (watch_url video_id) entry) answer))
    as Hpair.
  { intros i entry Hi.
    assert (i < length entries)%nat as Hlt by (apply lookup_lt_Some in Hi; exact Hi).
    destruct (lookup_lt_is_Some_2 answers i ltac:(lia)) as [answer Ha].
    exists answer. split; [exact Ha|].
    exact (paired_lines_lookup (watch_url video_id) _ _ _ _ _ Hi Ha). }
  split.
  - intros i entry Hi link. destruct (Hpair i entry Hi) as (answer & Ha & H1 & H2).
    split; [exact H1|]. split.
    + intros e He. rewrite He in Ha. injection Ha as <-. exact H2.
    + intros translated Ht. rewrite Ht in Ha. injection Ha as <-. exact H2.
  - intros k [e Hk] Hothers i entry Hi link.
    destruct (Hpair i entry Hi) as (answer & Ha & H1 & H2).
    assert (i < length entries)%nat as Hlt by (apply lookup_lt_Some in Hi; exact Hi).
    split; [exact H1|]. split.
    + intros ->. rewrite Hk in Ha. injection Ha as <-. exact H2.
    + intros Hne. destruct (Hothers i Hne Hlt) as [translated Ht].
      exists translated. split; [exact Ht|].
      rewrite Ht in Ha. injection Ha as <-. exact H2.
Qed.

Lemma translation_failure_is_entry_scoped_witness :
  ∃ lines w',
    transcript_lines env_translate "dQw4w9WgXcQ" true world0 = (Ok lines, w')
    ∧ length lines = 4%nat
    ∧ lines !! 1%nat
      = Some "[00:00:00](https://www.youtube.com/watch?v=dQw4w9WgXcQ&t=0s) (한글 번역) <hello>"
    ∧ lines !! 3%nat
      = Some "[00:00:59](https://www.youtube.com/watch?v=dQw4w9WgXcQ&t=59s) (한글 번역) 오류 발생".
Proof.
  destruct (translation_failure_is_entry_scoped env_translate "dQw4w9WgXcQ"
              [ {| start := 0; text := "hello" |};
                {| start := 599 # 10; text := "world" |} ] world0 eq_refl)
    as (lines & w' & Hrun & _ & Hlen & _ & Hlines).
  exists lines, w'. split; [exact Hrun|]. split; [exact Hlen|].
  assert (∃ e, translations env_translate (new_translator env_translate)
                 (map text [ {| start := 0; text := "hello" |};
                             {| start := 599 # 10; text := "world" |} ]) !! 1%nat
               = Some (inl e)) as Hk
    by (exists (Exception "TimeoutError"); reflexivity).
  assert (∀ i, i ≠ 1%nat → (i < 2)%nat →
            ∃ translated,
              translations env_translate (new_translator env_translate)
                (map text [ {| start := 0; text := "hello" |};
                            {| start := 599 # 10; text := "world" |} ]) !! i
              = Some (inr translated)) as Hothers.
  { intros [|[|i]] Hne Hlt; [exists "<hello>"; reflexivity|congruence|lia]. }
  destruct (Hlines 1%nat Hk Hothers 0%nat _ eq_refl) as (_ & _ & H0).
  destruct (Hlines 1%nat Hk Hothers 1%nat _ eq_refl) as (_ & H1 & _).
  split.
  - destruct (H0 ltac:(lia)) as (translated & Ht & Hline).
    injection Ht as <-. exact Hline.
  - exact (H1 eq_refl).
Defined.

(** C10. With translation requested, the second line of every entry
    begins with the same link as its first line, and for a non-negative
    start offset that link is built from one whole number of seconds, the
    truncation of the offset: it is the number after [&t=] and the number
    the clock label decomposes. *)
Theorem translated_line_shares_link {T} (env : Env T) (video_id : string)
    (entries : list Entry) (i : nat) (entry : Entry) (w : World) :
  transcript_api env video_id languages = inr entries →
  entries !! i = Some entry →
  (0 <= start entry)%Q →
  let n := Py.int (start entry) in
  let link :=
    "[" +:+ Py.format_02d (n / 3600) +:+ ":" +:+ Py.format_02d (n mod 3600 / 60)
    +:+ ":" +:+ Py.format_02d (n mod 60)
    +:+ "](https://www.youtube.com/watch?v=" +:+ video_id
    +:+ "&t=" +:+ Py.str_of_int n +:+ "s)" in
  (inject_Z n <= start entry)%Q ∧ (start entry < inject_Z (n + 1))%Q
  ∧ ∃ lines w' second,
      transcript_lines env video_id true w = (Ok lines, w')
      ∧ lines !! (2 * i)%nat = Some (link +:+ " " +:+ text entry)
      ∧ lines !! (2 * i + 1)%nat = Some (link +:+ " (한글 번역) " +:+ second).
Proof.
  intros Hentries Hi Hpos n link.
  destruct (int_nonneg _ Hpos) as [Hn _].
  split; [unfold n; rewrite Hn; apply Qfloor_le|].
  split; [unfold n; rewrite Hn; apply Qlt_floor|].
  set (answers := translations env (new_translator env) (map text entries)).
  assert (i < length answers)%nat as Hlt.
  { unfold answers. rewrite length_translations, length_map.
    apply lookup_lt_Some in Hi. exact Hi. }
  destruct (lookup_lt_is_Some_2 answers i Hlt) as [answer Ha].
  destruct (paired_lines_lookup (watch_url video_id) _ _ _ _ _ Hi Ha) as [H1 H2].
  rewrite (timestamp_link_deep video_id entry Hpos) in H1, H2.
  unfold second_line, deep_link, hms in H1, H2. fold n in H1, H2.
  rewrite !append_assoc in H1, H2.
  eexists _, _, _. split; [exact (transcript_lines_translating env _ w _ Hentries)|].
  subst link. rewrite !append_assoc. split; [exact H1|exact H2].
Qed.

Lemma translated_line_shares_link_witness :
  ∃ lines w' second,
    transcript_lines env_translate "dQw4w9WgXcQ" true world0 = (Ok lines, w')
    ∧ lines !! 2%nat
      = Some ("[00:00:59](https://www.youtube.com/watch?v=dQw4w9WgXcQ&t=59s)"
              +:+ " " +:+ "world")
    ∧ lines !! 3%nat
      = Some ("[00:00:59](https://www.youtube.com/watch?v=dQw4w9WgXcQ&t=59s)"
              +:+ " (한글 번역) " +:+ second).
Proof.
  assert (0 <= 599 # 10)%Q as Hpos by (vm_compute; discriminate).
  exact (proj2 (proj2 (translated_line_shares_link env_translate "dQw4w9WgXcQ"
           [ {| start := 0; text := "hello" |};
             {| start := 599 # 10; text := "world" |} ] 1
           {| start := 599 # 10; text := "world" |} world0 eq_refl eq_refl Hpos))).
Defined.

(** * Further properties of the code *)

(** ** Reference resolver *)

Lemma search_skip (c : ascii) (s : string) :
  Re.match_here (String c s) = None → Re.search (String c s) = Re.search s.
Proof. intros H. cbn [Re.search]. rewrite H. reflexivity. Qed.

Lemma search_here (s t : string) :
  Re.match_here s = Some t → Re.search s = Some t.
Proof. intros H. destruct s; cbn [Re.search]; rewrite H; reflexivity. Qed.

Lemma match_here_token (p id rest : string) :
  p = "v=" ∨ p = "/" → Pattern.is_token id → Pattern.follows rest →
  Re.match_here (p +:+ id +:+ rest) = Some id.
Proof.
  intros Hp [Hlen Hall] Hrest. unfold Re.match_here.
  rewrite (lead_complete _ _ Hp), <- Hlen, (token_complete _ _ Hall).
  apply tail_follows in Hrest. rewrite Hrest. reflexivity.
Qed.

Lemma search_watch_prefix (r : string) :
  Re.search ("https://www.youtube.com/watch?" +:+ r) = Re.search r.
Proof. cbv [String.append]. do 30 (rewrite search_skip by reflexivity). reflexivity. Qed.

Lemma search_short_prefix (r : string) :
  Re.search ("https://youtu.be" +:+ r) = Re.search r.
Proof. cbv [String.append]. do 16 (rewrite search_skip by reflexivity). reflexivity. Qed.

(** X1. Round trip through the URLs of a video.  For every identifier (11
    characters of [0-9A-Za-z_-]) the resolver recovers it from the watch
    URL the program itself builds, from that URL followed by parameters
    (in particular from every deep link target the assembler emits), and
    from the short [youtu.be] URL. *)
Theorem extract_video_id_of_urls (video_id rest : string) (n : Z) :
  Pattern.is_token video_id → Pattern.follows rest →
  extract_video_id (watch_url video_id) = video_id
  ∧ extract_video_id (watch_url video_id +:+ rest) = video_id
  ∧ extract_video_id (watch_url video_id +:+ "&t=" +:+ Py.str_of_int n +:+ "s")
    = video_id
  ∧ extract_video_id ("https://youtu.be/" +:+ video_id +:+ rest) = video_id.
Proof.
  intros Hid Hrest.
  assert (∀ r, Pattern.follows r →
            extract_video_id (watch_url video_id +:+ r) = video_id) as Hwatch.
  { intros r Hr. unfold extract_video_id, watch_url. rewrite append_assoc.
    change ("https://www.youtube.com/watch?v=" +:+ video_id +:+ r)
      with ("https://www.youtube.com/watch?" +:+ "v=" +:+ video_id +:+ r).
    rewrite search_watch_prefix.
    rewrite (search_here _ video_id); [reflexivity|].
    apply match_here_token; auto. }
  split; [|split; [|split]].
  - rewrite <- (append_nil_r (watch_url video_id)). apply Hwatch. left. reflexivity.
  - apply Hwatch, Hrest.
  - apply Hwatch. right. right. exists "&"%char, ("t=" +:+ Py.str_of_int n +:+ "s").
    split; [reflexivity|]. right. left. reflexivity.
  - unfold extract_video_id.
    change ("https://youtu.be/" +:+ video_id +:+ rest)
      with ("https://youtu.be" +:+ "/" +:+ video_id +:+ rest).
    rewrite search_short_prefix.
    rewrite (search_here _ video_id); [reflexivity|].
    apply match_here_token; auto.
Qed.

Lemma extract_video_id_of_urls_witness :
  extract_video_id (watch_url "dQw4w9WgXcQ" +:+ "&t=" +:+ Py.str_of_int 59 +:+ "s")
  = "dQw4w9WgXcQ".
Proof.
  assert (Pattern.is_token "dQw4w9WgXcQ") as Hid
    by (split; [reflexivity|repeat constructor]).
  assert (Pattern.follows "") as Hrest by (left; reflexivity).
  exact (proj1 (proj2 (proj2
           (extract_video_id_of_urls "dQw4w9WgXcQ" "" 59 Hid Hrest)))).
Defined.

Lemma lead_needs_separator (s r : string) :
  Re.lead s = Some r →
  In "/"%char (list_ascii_of_string s) ∨ In "="%char (list_ascii_of_string s).
Proof.
  intros H. destruct (lead_sound _ _ H) as (p & [-> | ->] & ->).
  - right. cbv [String.append list_ascii_of_string In]. auto.
  - left. cbv [String.append list_ascii_of_string In]. auto.
Qed.

Lemma search_without_separator (s : string) :
  ¬ In "/"%char (list_ascii_of_string s) →
  ¬ In "="%char (list_ascii_of_string s) →
  Re.search s = None.
Proof.
  induction s as [|c s IH]; intros Hs He; [reflexivity|].
  cbn [Re.search]. unfold Re.match_here.
  destruct (Re.lead (String c s)) as [r|] eqn:Hl.
  { destruct (lead_needs_separator _ _ Hl); tauto. }
  apply IH; intros Hin; [apply Hs|apply He]; cbn; auto.
Qed.

Lemma id_char_not_separator (c : ascii) :
  Re.id_char c = true → c ≠ "/"%char ∧ c ≠ "="%char.
Proof. intros H. split; intros ->; discriminate. Qed.

Lemma token_without_separator (t : string) :
  Forall (λ c, Re.id_char c = true) (list_ascii_of_string t) →
  ¬ In "/"%char (list_ascii_of_string t) ∧ ¬ In "="%char (list_ascii_of_string t).
Proof.
  intros Hall. rewrite Forall_forall in Hall.
  split; intros Hin%list_elem_of_In%Hall%id_char_not_separator; tauto.
Qed.

(** X2. A reference with no slash and no equals sign, such as a bare
    identifier of any length, is passed through unchanged, whatever else
    it contains. *)
Theorem extract_video_id_passthrough (input_str : string) :
  ¬ In "/"%char (list_ascii_of_string input_str) →
  ¬ In "="%char (list_ascii_of_string input_str) →
  extract_video_id input_str = input_str.
Proof.
  intros Hs He. unfold extract_video_id.
  rewrite (search_without_separator _ Hs He). reflexivity.
Qed.

Lemma extract_video_id_passthrough_witness :
  extract_video_id "not a video id?" = "not a video id?".
Proof.
  apply extract_video_id_passthrough; cbn; intros H;
    repeat (destruct H as [H|H]; [discriminate|]); exact H.
Defined.

(** X3. The resolver is idempotent, and its result is either the input
    itself or an identifier: exactly 11 characters, all of
    [0-9A-Za-z_-]. *)
Theorem extract_video_id_idempotent (input_str : string) :
  extract_video_id (extract_video_id input_str) = extract_video_id input_str
  ∧ (extract_video_id input_str = input_str
     ∨ (String.length (extract_video_id input_str) = 11%nat
        ∧ Forall (λ c, Re.id_char c = true)
            (list_ascii_of_string (extract_video_id input_str)))).
Proof.
  destruct (Re.search input_str) as [t|] eqn:Hf.
  2:{ assert (extract_video_id input_str = input_str) as ->
        by (unfold extract_video_id; rewrite Hf; reflexivity).
      split; [|left; reflexivity].
      unfold extract_video_id; rewrite Hf; reflexivity. }
  assert (extract_video_id input_str = t) as ->
    by (unfold extract_video_id; rewrite Hf; reflexivity).
  rewrite search_find in Hf.
  destruct (find_some _ _ tail_follows _ _ Hf)
    as (pre & (p & rest & _ & _ & [Hlen Hall] & _) & _).
  split; [|right; split; assumption].
  destruct (token_without_separator _ Hall) as [Hs He].
  unfold extract_video_id. rewrite (search_without_separator _ Hs He). reflexivity.
Qed.

(** ** File names *)

Lemma sanitize_filename_app (a b : string) :
  sanitize_filename (a +:+ b) = sanitize_filename a +:+ sanitize_filename b.
Proof.
  unfold sanitize_filename. induction a as [|c a IH]; [reflexivity|].
  rewrite append_cons. cbn [Re.sub_class_empty].
  destruct (Re.forbidden c); rewrite IH; reflexivity.
Qed.

Lemma sanitize_filename_clean (s : string) (c : ascii) :
  In c (list_ascii_of_string (sanitize_filename s)) →
  Re.forbidden c = false ∧ In c (list_ascii_of_string s).
Proof.
  unfold sanitize_filename. induction s as [|x s IH]; [intros []|].
  cbn [Re.sub_class_empty]. destruct (Re.forbidden x) eqn:Hx.
  - intros H. destruct (IH H). split; [assumption|]. cbn. auto.
  - cbn [list_ascii_of_string In]. intros [<-|H].
    + auto.
    + destruct (IH H). auto.
Qed.

Lemma sanitize_filename_fixed (s : string) :
  (∀ c, In c (list_ascii_of_string s) → Re.forbidden c = false) →
  sanitize_filename s = s.
Proof.
  unfold sanitize_filename. induction s as [|x s IH]; intros H; [reflexivity|].
  cbn [Re.sub_class_empty]. rewrite (H x) by (cbn; auto).
  rewrite IH; [reflexivity|]. intros c Hc. apply H. cbn. auto.
Qed.

Lemma sanitize_filename_shorter (s : string) :
  (String.length (sanitize_filename s) ≤ String.length s)%nat.
Proof.
  unfold sanitize_filename. induction s as [|x s IH]; [reflexivity|].
  cbn [Re.sub_class_empty]. destruct (Re.forbidden x); cbn [String.length]; lia.
Qed.

(** X4. [sanitize_filename] keeps the other characters in order and
    never adds one: its result has none of the nine characters, is no
    longer than the title, and is the title itself exactly when the title
    has none of them.  Sanitizing twice is sanitizing once, and the
    function distributes over concatenation. *)
Theorem sanitize_filename_properties (a b : string) :
  (∀ c, In c (list_ascii_of_string (sanitize_filename a)) →
     (c ∉ stripped_chars) ∧ In c (list_ascii_of_string a))
  ∧ (String.length (sanitize_filename a) ≤ String.length a)%nat
  ∧ (sanitize_filename a = a
     ↔ (∀ c, In c (list_ascii_of_string a) → c ∉ stripped_chars))
  ∧ sanitize_filename (sanitize_filename a) = sanitize_filename a
  ∧ sanitize_filename (a +:+ b) = sanitize_filename a +:+ sanitize_filename b.
Proof.
  split; [|split; [|split; [|split]]].
  - intros c Hc. destruct (sanitize_filename_clean _ _ Hc) as [Hf Hin].
    split; [|exact Hin]. intros Hs%forbidden_stripped. congruence.
  - apply sanitize_filename_shorter.
  - split.
    + intros Heq c Hc. rewrite <- Heq in Hc.
      destruct (sanitize_filename_clean _ _ Hc) as [Hf _].
      intros Hs%forbidden_stripped. congruence.
    + intros H. apply sanitize_filename_fixed. intros c Hc.
      destruct (Re.forbidden c) eqn:Hf; [|reflexivity].
      exfalso. apply (H c Hc), forbidden_stripped, Hf.
  - apply sanitize_filename_fixed. intros c Hc.
    apply (sanitize_filename_clean _ _ Hc).
  - apply sanitize_filename_app.
Qed.

Lemma id_char_not_forbidden (c : ascii) :
  Re.id_char c = true → Re.forbidden c = false.
Proof.
  intros H. destruct (Re.forbidden c) eqn:Hf; [|reflexivity].
  apply forbidden_stripped in Hf. unfold stripped_chars in Hf.
  rewrite !elem_of_cons, elem_of_nil in Hf.
  repeat (destruct Hf as [->|Hf]; [discriminate|]). destruct Hf.
Qed.

(** X5. An identifier survives sanitization, so the report of a video
    without metadata is named [<YYYYMMDD_HHMMSS>_<identifier>.md]. *)
Theorem default_report_name {T} (env : Env T) (video_id : string) :
  Pattern.is_token video_id →
  sanitize_filename video_id = video_id
  ∧ report_name env (default_metadata video_id)
    = strftime (clock env) +:+ "_" +:+ video_id +:+ ".md".
Proof.
  intros [_ Hall].
  assert (sanitize_filename video_id = video_id) as Heq.
  { apply sanitize_filename_fixed. intros c Hc%list_elem_of_In.
    rewrite Forall_forall in Hall. apply id_char_not_forbidden, Hall, Hc. }
  split; [exact Heq|]. unfold report_name, default_metadata. cbn [title].
  rewrite Heq. reflexivity.
Qed.

Lemma default_report_name_witness :
  report_name env_translate (default_metadata "dQw4w9WgXcQ")
  = strftime clock0 +:+ "_" +:+ "dQw4w9WgXcQ" +:+ ".md".
Proof.
  assert (Pattern.is_token "dQw4w9WgXcQ") as Hid
    by (split; [reflexivity|repeat constructor]).
  exact (proj2 (default_report_name env_translate "dQw4w9WgXcQ" Hid)).
Defined.

Lemma list_ascii_of_string_app (a b : string) :
  list_ascii_of_string (a +:+ b) = list_ascii_of_string a ++ list_ascii_of_string b.
Proof.
  induction a as [|c a IH]; [reflexivity|].
  rewrite append_cons. cbn [list_ascii_of_string app]. rewrite IH. reflexivity.
Qed.

Lemma format_02d_digits (n : Z) :
  0 ≤ n < 100 → forallb is_digit (list_ascii_of_string (Py.format_02d n)) = true.
Proof.
  apply (Forall_seqZ_range
           (λ n, forallb is_digit (list_ascii_of_string (Py.format_02d n)) = true) 0 100).
  apply Forall_forall. intros x Hx%list_elem_of_In.
  assert (forallb (λ n, forallb is_digit (list_ascii_of_string (Py.format_02d n)))
            (seqZ 0 100) = true) as Hall by (vm_compute; reflexivity).
  rewrite forallb_forall in Hall. apply Hall, Hx.
Qed.

Lemma format_04d_digits (n : Z) :
  1000 ≤ n < 10000 →
  forallb is_digit (list_ascii_of_string (Py.format_04d n)) = true.
Proof.
  intros Hn.
  apply (Forall_seqZ_range
           (λ n, forallb is_digit (list_ascii_of_string (Py.format_04d n)) = true)
           1000 9000); [|lia].
  apply Forall_forall. intros x Hx%list_elem_of_In.
  assert (forallb (λ n, forallb is_digit (list_ascii_of_string (Py.format_04d n)))
            (seqZ 1000 9000) = true) as Hall by (vm_compute; reflexivity).
  rewrite forallb_forall in Hall. apply Hall, Hx.
Qed.

Lemma digit_not_forbidden (c : ascii) : is_digit c = true → Re.forbidden c = false.
Proof.
  intros H. apply id_char_not_forbidden. unfold Re.id_char.
  unfold is_digit in H. rewrite H. reflexivity.
Qed.

Lemma strftime_not_forbidden (now : DateTime) (c : ascii) :
  valid_clock now → In c (list_ascii_of_string (strftime now)) →
  Re.forbidden c = false.
Proof.
  intros (Hy & Hm & Hd & HH & HM & HS). unfold strftime.
  rewrite !list_ascii_of_string_app, !in_app_iff.
  pose proof (format_04d_digits (year now) ltac:(lia)) as Dy.
  pose proof (format_02d_digits (month now) ltac:(lia)) as Dm.
  pose proof (format_02d_digits (day now) ltac:(lia)) as Dd.
  pose proof (format_02d_digits (hour now) ltac:(lia)) as DH.
  pose proof (format_02d_digits (minute now) ltac:(lia)) as DM.
  pose proof (format_02d_digits (second now) ltac:(lia)) as DS.
  rewrite forallb_forall in Dy, Dm, Dd, DH, DM, DS.
  intros [H|[H|[H|[H|[H|[H|H]]]]]]; auto using digit_not_forbidden.
  cbn in H. destruct H as [<-|[]]. reflexivity.
Qed.

(** X6. With a clock in a four-digit year, the file name
    [save_to_markdown] builds contains no slash, no backslash and none of
    the other stripped characters, whatever the title: the report is a
    file directly under [output/]. *)
Theorem report_name_has_no_separator {T} (env : Env T) (metadata : Metadata)
    (c : ascii) :
  valid_clock (clock env) →
  In c (list_ascii_of_string (report_name env metadata)) →
  c ∉ stripped_chars.
Proof.
  intros Hclock Hin Hs%forbidden_stripped.
  unfold report_name in Hin.
  rewrite !list_ascii_of_string_app, !in_app_iff in Hin.
  destruct Hin as [H|[H|[H|H]]].
  - rewrite (strftime_not_forbidden _ _ Hclock H) in Hs. discriminate.
  - cbn in H. destruct H as [<-|[]]. discriminate.
  - destruct (sanitize_filename_clean _ _ H) as [Hf _]. congruence.
  - cbn in H. repeat (destruct H as [<-|H]; [discriminate|]). destruct H.
Qed.

Lemma report_name_has_no_separator_witness :
  "2"%char ∉ stripped_chars.
Proof.
  assert (valid_clock (clock env_scraped)) as Hclock
    by (vm_compute; intuition discriminate).
  apply (report_name_has_no_separator env_scraped
           {| title := "A/B"; channel := ""; url := "" |} "2"%char Hclock).
  vm_compute. left. reflexivity.
Defined.

(** ** Timestamp formatter *)


Lemma Qfloor_below (x : Q) (b : Z) : (x < inject_Z b)%Q → Qfloor x < b.
Proof.
  intros H. rewrite Zlt_Qlt. eapply Qle_lt_trans; [apply Qfloor_le|exact H].
Qed.

(** X7. Below one hundred hours the label has the fixed shape
    [HH:MM:SS]: eight characters, each a decimal digit or a colon. *)
Theorem format_timestamp_fixed_width (seconds : Q) :
  (0 <= seconds)%Q → (seconds < 360000)%Q →
  String.length (format_timestamp seconds) = 8%nat
  ∧ ∀ c, In c (list_ascii_of_string (format_timestamp seconds)) →
      is_digit c = true ∨ c = ":"%char.
Proof.
  intros Hpos Hlt. destruct (int_nonneg _ Hpos) as [_ H0].
  pose proof (Qfloor_below seconds 360000 Hlt) as H1.
  rewrite format_timestamp_floor.
  set (n := Qfloor seconds) in *.
  assert (0 ≤ n / 3600 < 100) as Hh
    by (split; [apply Z.div_pos; lia|apply Z.div_lt_upper_bound; lia]).
  pose proof (Z.mod_pos_bound n 3600 ltac:(lia)) as Hb.
  assert (0 ≤ n mod 3600 / 60 < 100) as Hm
    by (split; [apply Z.div_pos; lia|apply Z.div_lt_upper_bound; lia]).
  assert (0 ≤ n mod 60 < 100) as Hs
    by (pose proof (Z.mod_pos_bound n 60 ltac:(lia)); lia).
  split.
  - rewrite !length_append, !format_02d_width by assumption. reflexivity.
  - intros c. rewrite !list_ascii_of_string_app, !in_app_iff.
    pose proof (format_02d_digits _ Hh) as Dh.
    pose proof (format_02d_digits _ Hm) as Dm.
    pose proof (format_02d_digits _ Hs) as Ds.
    rewrite forallb_forall in Dh, Dm, Ds.
    intros [H|[H|[H|[H|H]]]]; auto;
      cbn in H; destruct H as [<-|[]]; right; reflexivity.
Qed.

Lemma format_timestamp_fixed_width_witness :
  String.length (format_timestamp (599 # 10)) = 8%nat.
Proof.
  assert (0 <= 599 # 10)%Q as H0 by (vm_compute; discriminate).
  assert (599 # 10 < 360000)%Q as H1 by reflexivity.
  exact (proj1 (format_timestamp_fixed_width (599 # 10) H0 H1)).
Defined.


(** ** Transcript assembler *)

(** X9. Without translation a transcript of N entries gives N lines, line
    [i] being the link and the text of entry [i]; the transcript provider
    is called once, with the languages [en] then [ko], and the translation
    provider is not called. *)
Theorem transcript_without_translation {T} (env : Env T) (video_id : string)
    (entries : list Entry) (w : World) :
  transcript_api env video_id ["en"; "ko"] = inr entries →
  ∃ lines,
    transcript_lines env video_id false w
    = (Ok lines, add_events w [CallTranscriptApi video_id ["en"; "ko"]])
    ∧ get_transcript env video_id false w
      = (Ok (Py.join nl lines), add_events w [CallTranscriptApi video_id ["en"; "ko"]])
    ∧ length lines = length entries
    ∧ ∀ i entry, entries !! i = Some entry →
        lines !! i
        = Some (timestamp_link (watch_url video_id) entry +:+ " " +:+ text entry).
Proof.
  intros H. exists (plain_lines (watch_url video_id) entries).
  split; [exact (transcript_lines_plain env _ w _ H)|].
  split.
  { rewrite get_transcript_lines, (transcript_lines_plain env _ w _ H). reflexivity. }
  unfold plain_lines. split; [apply length_map|].
  intros i entry Hi. change map with (@fmap list _) at 1.
  rewrite list_lookup_fmap, Hi. reflexivity.
Qed.

Lemma transcript_without_translation_witness :
  ∃ lines,
    transcript_lines env_prompt "dQw4w9WgXcQ" false world0
    = (Ok lines, add_events world0 [CallTranscriptApi "dQw4w9WgXcQ" ["en"; "ko"]])
    ∧ length lines = 2%nat.
Proof.
  destruct (transcript_without_translation env_prompt "dQw4w9WgXcQ" _ world0 eq_refl)
    as (lines & H1 & _ & H3 & _).
  exists lines. split; [exact H1|exact H3].
Defined.

(** X10. With translation the translation provider is called exactly once
    per entry, in the order of the transcript, with the text of the entry
    and the target language [ko]; a call that raises is not repeated. *)
Theorem translation_calls {T} (env : Env T) (video_id : string)
    (entries : list Entry) (w : World) :
  transcript_api env video_id ["en"; "ko"] = inr entries →
  (get_transcript env video_id true w).2
  = add_events w (CallTranscriptApi video_id ["en"; "ko"]
                  :: map (λ entry, CallTranslate (text entry) "ko") entries).
Proof.
  intros H.
  rewrite get_transcript_lines, (transcript_lines_translating env _ w _ H).
  reflexivity.
Qed.

Lemma translation_calls_witness :
  (get_transcript env_translate "dQw4w9WgXcQ" true world0).2
  = add_events world0 [ CallTranscriptApi "dQw4w9WgXcQ" ["en"; "ko"];
                        CallTranslate "hello" "ko"; CallTranslate "world" "ko" ].
Proof. exact (translation_calls env_translate "dQw4w9WgXcQ" _ world0 eq_refl). Defined.

(** X11. The transcript is the empty string exactly when the provider
    returned no entry, with or without translation. *)
Theorem transcript_empty_iff {T} (env : Env T) (video_id : string)
    (translate : bool) (entries : list Entry) (w : World) :
  transcript_api env video_id ["en"; "ko"] = inr entries →
  ((get_transcript env video_id translate w).1 = Ok "" ↔ entries = []).
Proof.
  intros H. rewrite get_transcript_lines. split.
  - intros Hempty. destruct entries as [|entry entries]; [reflexivity|exfalso].
    destruct (transcript_lines_truthy env video_id translate w _ H ltac:(discriminate))
      as (lines & w' & Hrun & _ & Htruthy).
    rewrite Hrun in Hempty. cbn [fst] in Hempty. injection Hempty as Hempty.
    rewrite Hempty in Htruthy. discriminate.
  - intros ->. destruct translate.
    + rewrite (transcript_lines_translating env _ w _ H). reflexivity.
    + rewrite (transcript_lines_plain env _ w _ H). reflexivity.
Qed.

Lemma transcript_empty_iff_witness :
  (get_transcript env_empty "dQw4w9WgXcQ" true world0).1 = Ok "".
Proof.
  exact (proj2 (transcript_empty_iff env_empty "dQw4w9WgXcQ" true [] world0 eq_refl)
           eq_refl).
Defined.

(** ** Metadata fallback chain *)


(** X13. When the scraping provider failed and a credential is set, the
    record comes from the first item of the API response, the other items
    being ignored, and its title is not checked: an empty title is
    returned as it is. *)
Theorem metadata_from_first_item {T} (env : Env T) (video_id key t c : string)
    (items : list (string * string)) (w : World) :
  primary_failed env video_id →
  environ env !! "YOUTUBE_API_KEY" = Some key → key ≠ "" →
  pyyoutube_api env key video_id = inr ((t, c) :: items) →
  (get_video_metadata env video_id w).1
  = Ok (Some {| title := t; channel := c; url := watch_url video_id |}).
Proof.
  intros Hfail Hkey Hne%truthy_nonempty Hitems.
  assert (credential env = Some key) as Hc
    by (unfold credential; rewrite Hkey, Hne; reflexivity).
  rewrite (get_video_metadata_credential env _ w _ Hfail Hc), Hitems. reflexivity.
Qed.

Lemma metadata_from_first_item_witness :
  (get_video_metadata env_untitled "dQw4w9WgXcQ" world0).1
  = Ok (Some {| title := ""; channel := "API channel";
                url := watch_url "dQw4w9WgXcQ" |}).
Proof.
  apply (metadata_from_first_item env_untitled "dQw4w9WgXcQ" "k3y" "" "API channel"
           [("Second", "Other")] world0 I eq_refl); [discriminate|reflexivity].
Defined.

(** ** Report writer *)

(** X14. Writing a report replaces whatever the file held and touches no
    other file; a second report with the same title in the same second
    takes the place of the first. *)
Theorem save_to_markdown_overwrites {T} (env : Env T) (metadata : Metadata)
    (first second : string) (w : World) :
  open_error env (report_path env metadata) = None →
  let w1 := (save_to_markdown env metadata first w).2 in
  let w2 := (save_to_markdown env metadata second w1).2 in
  files w1 !! report_path env metadata = Some (document metadata first)
  ∧ (∀ path, path ≠ report_path env metadata → files w1 !! path = files w !! path)
  ∧ files w2 !! report_path env metadata = Some (document metadata second)
  ∧ files w2 = files (save_to_markdown env metadata second w).2.
Proof.
  intros Hopen w1 w2. subst w1 w2.
  rewrite !(save_to_markdown_written env _ _ _ Hopen). cbn [snd files].
  split; [apply lookup_insert_eq|].
  split; [intros path Hne; apply lookup_insert_ne; congruence|].
  split; [apply lookup_insert_eq|apply insert_insert_eq].
Qed.

Lemma save_to_markdown_overwrites_witness :
  files (save_to_markdown env_scraped (default_metadata "dQw4w9WgXcQ") "b"
           (save_to_markdown env_scraped (default_metadata "dQw4w9WgXcQ") "a"
              world0).2).2
  !! report_path env_scraped (default_metadata "dQw4w9WgXcQ")
  = Some (document (default_metadata "dQw4w9WgXcQ") "b").
Proof.
  exact (proj1 (proj2 (proj2
           (save_to_markdown_overwrites env_scraped (default_metadata "dQw4w9WgXcQ")
              "a" "b" world0 eq_refl)))).
Defined.

(** ** Pipeline driver *)

(** X15. Without a reference (an empty argument, or nothing typed at the
    prompt) the driver returns at once: no provider is called and no file
    is written; the prompt is the only call, and only when there is no
    argument. *)
Theorem main_without_reference {T} (env : Env T) (w : World) :
  raw_input env = "" →
  (main env w).1 = Ok None
  ∧ files (main env w).2 = files w
  ∧ events (main env w).2
    = events w
      ++ (if (length (argv env) <? 2)%nat
          then [CallInput "유튜브 영상 ID 또는 URL을 입력하세요: "] else []).
Proof.
  intros Hraw. rewrite (main_no_reference env w Hraw). cbn [fst snd].
  split; [reflexivity|]. split; [apply files_prompted|].
  unfold prompted. destruct (length (argv env) <? 2)%nat; [reflexivity|].
  rewrite app_nil_r. reflexivity.
Qed.

Lemma main_without_reference_witness :
  (main env_silent world0).1 = Ok None
  ∧ files (main env_silent world0).2 = files world0.
Proof.
  destruct (main_without_reference env_silent world0 eq_refl) as (H1 & H2 & _).
  exact (conj H1 H2).
Defined.

(** The run of the driver on a reference whose transcript has an entry,
    up to the call of the report writer. *)
Lemma main_with_transcript {T} (env : Env T) (w : World) m w1 entries :
  raw_input env ≠ "" →
  get_video_metadata env (extract_video_id (raw_input env)) (prompted env w)
    = (Ok m, w1) →
  transcript_api env (extract_video_id (raw_input env)) languages = inr entries →
  entries ≠ [] →
  ∃ lines tevs,
    transcript_lines env (extract_video_id (raw_input env)) (translate_flag env) w1
      = (Ok lines, add_events w1 tevs)
    ∧ main env w
      = match save_to_markdown env
                (or_default (extract_video_id (raw_input env)) m)
                (Py.join nl lines)
                (add_events (add_events w1 tevs) [CallPrint m]) with
        | (Ok _, w4) => (Ok None, w4)
        | (Raise e, w4) => (Raise e, w4)
        end
    ∧ files w1 = files w.
Proof.
  intros Hraw Hm He Hne.
  assert (files w1 = files w) as Hf.
  { destruct (get_video_metadata_total env (extract_video_id (raw_input env))
                (prompted env w)) as (m' & evs & Hm').
    rewrite Hm in Hm'. injection Hm' as _ ->.
    rewrite files_add_events. apply files_prompted. }
  rewrite (main_run env w m _ Hraw Hm).
  destruct (translate_flag env).
  - rewrite (transcript_lines_translating env _ w1 _ He).
    destruct (transcript_lines_truthy env _ true w1 _ He Hne)
      as (lines & w' & Hrun & _ & Htruthy).
    rewrite (transcript_lines_translating env _ w1 _ He) in Hrun.
    injection Hrun as <- _. unfold nl in *. rewrite Htruthy.
    eexists _, _. split; [reflexivity|]. split; [reflexivity|exact Hf].
  - rewrite (transcript_lines_plain env _ w1 _ He).
    destruct (transcript_lines_truthy env _ false w1 _ He Hne)
      as (lines & w' & Hrun & _ & Htruthy).
    rewrite (transcript_lines_plain env _ w1 _ He) in Hrun.
    injection Hrun as <- _. unfold nl in *. rewrite Htruthy.
    eexists _, _. split; [reflexivity|]. split; [reflexivity|exact Hf].
Qed.

(** X16. A report file that cannot be opened is fatal: the exception of
    [open] leaves the driver as it is, and no file is changed. *)
Theorem main_open_failure {T} (env : Env T) (w : World)
    (m : option Metadata) (w1 : World) (entries : list Entry) (e : Exn) :
  let video_id := extract_video_id (raw_input env) in
  raw_input env ≠ "" →
  get_video_metadata env video_id (prompted env w) = (Ok m, w1) →
  transcript_api env video_id ["en"; "ko"] = inr entries → entries ≠ [] →
  open_error env (report_path env (or_default video_id m)) = Some e →
  (main env w).1 = Raise e ∧ files (main env w).2 = files w.
Proof.
  intros video_id Hraw Hm He Hne Hopen.
  destruct (main_with_transcript env w m w1 entries Hraw Hm He Hne)
    as (lines & tevs & _ & -> & Hf).
  fold video_id. rewrite (save_to_markdown_refused env _ _ _ _ Hopen).
  cbn [fst snd]. split; [reflexivity|]. rewrite !files_add_events. exact Hf.
Qed.

Lemma main_open_failure_witness :
  (main env_readonly world0).1 = Raise (Exception "FileNotFoundError")
  ∧ files (main env_readonly world0).2 = files world0.
Proof.
  assert (raw_input env_readonly ≠ "") as Hraw by (vm_compute; discriminate).
  refine (main_open_failure env_readonly world0 _ _ _ _ Hraw eq_refl eq_refl _ eq_refl).
  discriminate.
Defined.

Lemma main_success_run {T} (env : Env T) (w : World) m w1 entries :
  raw_input env ≠ "" →
  get_video_metadata env (extract_video_id (raw_input env)) (prompted env w)
    = (Ok m, w1) →
  transcript_api env (extract_video_id (raw_input env)) languages = inr entries →
  entries ≠ [] →
  open_error env (report_path env (or_default (extract_video_id (raw_input env)) m))
    = None →
  main env w
  = (Ok None,
     {| files :=
          <[report_path env (or_default (extract_video_id (raw_input env)) m)
            := document (or_default (extract_video_id (raw_input env)) m)
                 (Py.join nl
                    (if translate_flag env
                     then paired_lines (watch_url (extract_video_id (raw_input env)))
                            entries
                            (translations env (new_translator env) (map text entries))
                     else plain_lines (watch_url (extract_video_id (raw_input env)))
                            entries))]> (files w);
        events :=
          events w1
          ++ CallTranscriptApi (extract_video_id (raw_input env)) languages
             :: (if translate_flag env
                 then map (λ entry, CallTranslate (text entry) "ko") entries
                 else [])
          ++ [CallPrint m;
              CallOpen (report_path env
                          (or_default (extract_video_id (raw_input env)) m))] |}).
Proof.
  intros Hraw Hm He Hne Hopen.
  destruct (main_with_transcript env w m w1 entries Hraw Hm He Hne)
    as (lines & tevs & Hrun & -> & Hf).
  rewrite (save_to_markdown_written env _ _ _ Hopen).
  destruct (translate_flag env).
  - rewrite (transcript_lines_translating env _ w1 _ He) in Hrun.
    injection Hrun as <- Hev. apply app_inv_head in Hev. subst tevs.
    f_equal. unfold add_events. cbn [files events]. rewrite Hf.
    f_equal. rewrite <- !app_assoc. reflexivity.
  - rewrite (transcript_lines_plain env _ w1 _ He) in Hrun.
    injection Hrun as <- Hev. apply app_inv_head in Hev. subst tevs.
    f_equal. unfold add_events. cbn [files events]. rewrite Hf.
    f_equal. rewrite <- !app_assoc. reflexivity.
Qed.

(** X17. A successful run, in full.  On a non-empty reference whose
    transcript has an entry and whose report file opens, the driver first
    runs the metadata chain, then calls the transcript provider, then the
    translation provider once per entry when an option asks for it, then
    prints the metadata and opens the file.  The report holds the metadata
    the chain returned, or the default, and as body the lines of the
    transcript joined by newlines. *)
Theorem main_success {T} (env : Env T) (w : World)
    (m : option Metadata) (w1 : World) (entries : list Entry) :
  let video_id := extract_video_id (raw_input env) in
  let metadata := or_default video_id m in
  let lines :=
    if translate_flag env
    then paired_lines (watch_url video_id) entries
           (translations env (new_translator env) (map text entries))
    else plain_lines (watch_url video_id) entries in
  raw_input env ≠ "" →
  get_video_metadata env video_id (prompted env w) = (Ok m, w1) →
  transcript_api env video_id ["en"; "ko"] = inr entries → entries ≠ [] →
  open_error env (report_path env metadata) = None →
  (main env w).1 = Ok None
  ∧ files (main env w).2
    = <[report_path env metadata := document metadata (Py.join nl lines)]> (files w)
  ∧ events (main env w).2
    = events w1
      ++ CallTranscriptApi video_id ["en"; "ko"]
         :: (if translate_flag env
             then map (λ entry, CallTranslate (text entry) "ko") entries
             else [])
      ++ [CallPrint m; CallOpen (report_path env metadata)].
Proof.
  intros video_id metadata lines Hraw Hm He Hne Hopen.
  rewrite (main_success_run env w m w1 entries Hraw Hm He Hne Hopen).
  repeat split.
Qed.

Lemma main_success_witness :
  events (main env_translate world0).2
  = [ CallPytube "https://www.youtube.com/watch?v=dQw4w9WgXcQ";
      CallGetenv "YOUTUBE_API_KEY";
      CallTranscriptApi "dQw4w9WgXcQ" ["en"; "ko"];
      CallTranslate "hello" "ko"; CallTranslate "world" "ko";
      CallPrint None;
      CallOpen "output/20261104_090507_dQw4w9WgXcQ.md" ].
Proof.
  assert (raw_input env_translate ≠ "") as Hraw by (vm_compute; discriminate).
  refine (proj2 (proj2 (main_success env_translate world0 _ _ _
                          Hraw eq_refl eq_refl _ eq_refl))).
  discriminate.
Defined.

(** X18. The options are looked for after the reference only.  When the
    reference is typed at the prompt there is none, so the run never
    translates: the translation provider is not called and the report has
    one line per entry. *)
Theorem main_prompt_never_translates {T} (env : Env T) (w : World)
    (m : option Metadata) (w1 : World) (entries : list Entry) :
  let video_id := extract_video_id (stdin_stripped env) in
  let metadata := or_default video_id m in
  (length (argv env) < 2)%nat →
  stdin_stripped env ≠ "" →
  get_video_metadata env video_id
    (add_events w [CallInput "유튜브 영상 ID 또는 URL을 입력하세요: "]) = (Ok m, w1) →
  transcript_api env video_id ["en"; "ko"] = inr entries → entries ≠ [] →
  open_error env (report_path env metadata) = None →
  files (main env w).2
  = <[report_path env metadata
      := document metadata
           (Py.join nl
              (map (λ entry,
                      timestamp_link (watch_url video_id) entry +:+ " " +:+ text entry)
                 entries))]> (files w)
  ∧ events (main env w).2
    = events w1
      ++ [CallTranscriptApi video_id ["en"; "ko"]; CallPrint m;
          CallOpen (report_path env metadata)].
Proof.
  intros video_id metadata Hargv Hraw Hm He Hne Hopen.
  assert ((length (argv env) <? 2)%nat = true) as Hlt by (apply Nat.ltb_lt; exact Hargv).
  assert (raw_input env = stdin_stripped env) as Hr
    by (unfold raw_input; rewrite Hlt; reflexivity).
  assert (translate_flag env = false) as Hflag.
  { unfold translate_flag. rewrite drop_ge by lia. reflexivity. }
  assert (prompted env w
          = add_events w [CallInput "유튜브 영상 ID 또는 URL을 입력하세요: "]) as Hp
    by (unfold prompted; rewrite Hlt; reflexivity).
  rewrite <- Hr in Hraw. subst video_id metadata. rewrite <- Hr in *.
  rewrite <- Hp in Hm.
  rewrite (main_success_run env w m w1 entries Hraw Hm He Hne Hopen), Hflag.
  split; reflexivity.
Qed.

Lemma main_prompt_never_translates_witness :
  events (main env_prompt world0).2
  = [ CallInput "유튜브 영상 ID 또는 URL을 입력하세요: ";
      CallPytube "https://www.youtube.com/watch?v=dQw4w9WgXcQ";
      CallGetenv "YOUTUBE_API_KEY";
      CallTranscriptApi "dQw4w9WgXcQ" ["en"; "ko"];
      CallPrint None;
      CallOpen "output/20261104_090507_dQw4w9WgXcQ.md" ].
Proof.
  assert (length (argv env_prompt) < 2)%nat as Hargv by (cbn; lia).
  assert (stdin_stripped env_prompt ≠ "") as Hraw by (vm_compute; discriminate).
  refine (proj2 (main_prompt_never_translates env_prompt world0 _ _ _
                   Hargv Hraw eq_refl eq_refl _ eq_refl)).
  discriminate.
Defined.
